(** * Message-statistics graphs: a model of [python/cogs/graph.py]

    The cog fetches per-user message counts from a remote HTTP service,
    accumulates them into per-user cumulative series (or per-interval
    totals for the server variant), renders a figure into the file
    [last_graph.png] and sends that file back to the chat channel.

    The Python code is embedded shallowly: pure helpers are functions,
    and everything that touches the outside (clock, HTTP session, pyplot's
    current axes, the image file, the chat context) runs in a small
    state-and-exception monad over an explicit [world]. *)

From Stdlib Require Import ZArith List Ascii String Bool Lia DecimalString.
Import ListNotations.
Open Scope Z_scope.

(* ================================================================== *)
(** ** Pure helpers *)

(** [clamp], graph.py lines 20-25. *)
Definition clamp (value low high : Z) : Z :=
  if value <? low then low
  else if value >? high then high
  else value.

(** [range(n)] for a Python integer [n]: empty when [n <= 0]. *)
Definition range (n : Z) : list Z := map Z.of_nat (seq 0 (Z.to_nat n)).

(** [str(n)] for a Python integer. *)
Definition str_of_int (n : Z) : string := NilZero.string_of_int (Z.to_int n).

(** A Python [str] is kept as its UTF-8 encoding, one [ascii] per byte:
    a character is a leading byte followed by its continuation bytes,
    which are the bytes of the form [10xxxxxx]. *)
Definition is_continuation (b : ascii) : bool :=
  match b with
  | Ascii _ _ _ _ _ _ b6 b7 => b7 && negb b6
  end.

(** Drops the last [n] characters of a string given by its bytes in
    reverse order: the continuation bytes of a character come off with
    it, and its leading byte completes it. *)
Fixpoint drop_characters (n : nat) (rev_bytes : list ascii) : list ascii :=
  match rev_bytes with
  | [] => []
  | b :: rest =>
      match n with
      | O => rev_bytes
      | S n' =>
          if is_continuation b then drop_characters n rest
          else drop_characters n' rest
      end
  end.

(** [s[:-5]]: everything but the last five characters. *)
Definition drop_last5 (s : string) : string :=
  string_of_list_ascii
    (rev (drop_characters 5 (rev (list_ascii_of_string s)))).

(* ================================================================== *)
(** ** Python dictionaries

    Keys are Discord identifiers.  A Python [dict] keeps its keys in
    insertion order and assigning to an existing key overwrites the value
    in place; both matter here because the request parameters and the
    plotted lines follow the iteration order. *)

Module PyDict.

Definition t (V : Type) : Type := list (Z * V).

Fixpoint get {V} (d : t V) (k : Z) : option V :=
  match d with
  | [] => None
  | (k', v) :: rest => if k =? k' then Some v else get rest k
  end.

Fixpoint set {V} (k : Z) (v : V) (d : t V) : t V :=
  match d with
  | [] => [(k, v)]
  | (k', v') :: rest =>
      if k =? k' then (k', v) :: rest else (k', v') :: set k v rest
  end.

Definition keys {V} (d : t V) : list Z := map fst d.
Definition values {V} (d : t V) : list V := map snd d.

(** A dict comprehension [{k: v for ... in items}]: successive
    assignments into an initially empty dict. *)
Definition of_items {V} (items : list (Z * V)) : t V :=
  fold_left (fun d kv => set (fst kv) (snd kv) d) items [].

End PyDict.

(* ================================================================== *)
(** ** Data exchanged with the collaborators *)

(** One row of the JSON array returned by the statistics service.  A row
    carries its three fields, [messages] being an integer: a row that
    lacks one of them, on which the code raises [KeyError], is outside
    the model. *)
Record StatSample : Type := mkSample {
  discord_id : Z;
  user : string;
  messages : Z
}.

Record response : Type := mkResponse {
  status : Z;
  json : list StatSample
}.

(** Values of query parameters.  A [datetime] is kept as the number of
    microseconds since 0001-01-01T00:00:00 ([datetime.min]); its
    [isoformat()] rendering is not unfolded. *)
Inductive param_value : Type :=
| PTime (iso : Z)
| PInt (n : Z)
| PId (uid : Z).

Definition request : Type := list (string * param_value).

(** A [discord.Member], of which only [.id] is read. *)
Record Member : Type := mkMember { id : Z }.

Definition point : Type := (Z * Z)%type.
Definition series : Type := list point.

(** One call of [plt.plot(xaxis, yaxis, label=...)]. *)
Record line : Type := mkLine {
  xaxis : list Z;
  yaxis : list Z;
  label : string
}.

(** What ends up in [last_graph.png]. *)
Inductive figure : Type :=
| UsersFigure (lines : list line) (since : Z)
| ServerFigure (values_x : list string) (values_y : list Z).

Inductive reply : Type :=
| SendFile (file_to_send : figure)
| SendText (content : string).

Inductive exn : Type :=
| OverflowError
| KeyError
| FileNotFoundError
| BadArgument (msg : string).

Inductive result (A : Type) : Type :=
| Ok (a : A)
| Raise (e : exn).
Arguments Ok {A} a.
Arguments Raise {A} e.

(* ================================================================== *)
(** ** The world *)

(** The collaborators the cog only reads from: the statistics service
    (its answer may depend on how many requests were served before and on
    the query), the UTC clock (one reading per call of [utcnow]) and
    [strftime('%b %d')]. *)
Record env : Type := mkEnv {
  http : nat -> request -> response;
  clock : nat -> Z;
  strftime_b_d : Z -> string
}.

(** What the cog changes: clock readings consumed, the requests issued
    with their responses (oldest first), pyplot's current axes, the image
    file and the replies sent through [ctx.send]. *)
Record world : Type := mkWorld {
  ticks : nat;
  log : list (request * response);
  axes : list line;
  last_graph : option figure;
  sent : list reply
}.

Definition M (A : Type) : Type := world -> result A * world.

Definition ret {A} (a : A) : M A := fun w => (Ok a, w).
Definition raise {A} (e : exn) : M A := fun w => (Raise e, w).
Definition bind {A B} (m : M A) (k : A -> M B) : M B :=
  fun w =>
    match m w with
    | (Ok a, w') => k a w'
    | (Raise e, w') => (Raise e, w')
    end.
Definition lift {A} (r : result A) : M A := fun w => (r, w).

Notation "x <- m ;; k" := (bind m (fun x => k))
  (at level 61, m at next level, right associativity).
Notation "m ;;; k" := (bind m (fun _ => k))
  (at level 61, right associativity).

(** *** Time *)

Definition us_per_day : Z := 86400000000.
(** [datetime.max] is 9999-12-31T23:59:59.999999, ordinal day 3652059. *)
Definition datetime_end : Z := 3652059 * us_per_day.

(** [timedelta(days=d)]. *)
Definition timedelta (d : Z) : result Z :=
  if Z.abs d <=? 999999999 then Ok (d * us_per_day) else Raise OverflowError.

(** [t - delta] on a [datetime]. *)
Definition datetime_sub (t delta : Z) : result Z :=
  let r := t - delta in
  if (0 <=? r) && (r <? datetime_end) then Ok r else Raise OverflowError.

Section Effects.

Variable E : env.

(** [datetime.utcnow()]. *)
Definition utcnow : M Z := fun w =>
  (Ok (clock E (ticks w)),
   mkWorld (S (ticks w)) (log w) (axes w) (last_graph w) (sent w)).

(** [datetime.utcnow() - timedelta(days=d)]. *)
Definition days_ago (d : Z) : M Z :=
  now <- utcnow ;;
  delta <- lift (timedelta d) ;;
  lift (datetime_sub now delta).

(** [self.client.session.get(url, params=params)], for a request that
    is answered: a network fault or a body that is not JSON, on which the
    client raises, is outside the model. *)
Definition session_get (params : request) : M response := fun w =>
  let r := http E (List.length (log w)) params in
  (Ok r, mkWorld (ticks w) (log w ++ [(params, r)]) (axes w)
                 (last_graph w) (sent w)).

(** [plt.plot(...)] on the current axes. *)
Definition plt_plot (l : line) : M unit := fun w =>
  (Ok tt, mkWorld (ticks w) (log w) (axes w ++ [l]) (last_graph w) (sent w)).

(** [plt.savefig('last_graph.png')] of the current axes. *)
Definition plt_savefig (since : Z) : M unit := fun w =>
  (Ok tt, mkWorld (ticks w) (log w) (axes w)
                  (Some (UsersFigure (axes w) since)) (sent w)).

(** [plt.cla()]. *)
Definition plt_cla : M unit := fun w =>
  (Ok tt, mkWorld (ticks w) (log w) [] (last_graph w) (sent w)).

(** [fig, ax = plt.subplots(); ax.plot(...); fig.savefig(...);
    fig.clear()]: a figure of its own, which becomes the current one and
    is left empty. *)
Definition fig_render (values_x : list string) (values_y : list Z) : M unit :=
  fun w =>
    (Ok tt, mkWorld (ticks w) (log w) []
                    (Some (ServerFigure values_x values_y)) (sent w)).

(** [with open('last_graph.png', 'rb') as g: File(g)]. *)
Definition open_last_graph : M figure := fun w =>
  match last_graph w with
  | Some g => (Ok g, w)
  | None => (Raise FileNotFoundError, w)
  end.

(** [ctx.send(...)]. *)
Definition ctx_send (r : reply) : M unit := fun w =>
  (Ok tt, mkWorld (ticks w) (log w) (axes w) (last_graph w) (sent w ++ [r])).

End Effects.

(* ================================================================== *)
(** ** The cog *)

Definition param (k : string) (v : param_value) : string * param_value := (k, v).

(** [d[k]] on a dict, raising [KeyError] on a missing key. *)
Definition index {V} (d : PyDict.t V) (k : Z) : result V :=
  match PyDict.get d k with
  | Some v => Ok v
  | None => Raise KeyError
  end.

(** The three parallel mappings built by [create_graph_messages]. *)
Record SeriesSet : Type := mkSeriesSet {
  user_names : PyDict.t string;
  num_messages : PyDict.t Z;
  graph_data : PyDict.t series
}.

(** What a command handler hands back to the framework. *)
Inductive returned : Type :=
| ReturnedNone
| ReturnedFalse.

(** [data[-1][1]] when [data] is non-empty, [0] otherwise (lines 88-91). *)
Definition current_msg (data : series) : Z :=
  match data with
  | [] => 0
  | _ :: _ => snd (last data (0, 0))
  end.

(** The loop over [graph_data.items()] for day [i] (lines 87-100):
    every series gets one more point and the names of the users found in
    [retrieved_users] are overwritten.  The comprehension of line 69
    builds a list of its own for every key, so appending to one series
    changes no other. *)
Fixpoint accumulate_day (i : Z) (retrieved_users : PyDict.t StatSample)
    (names : PyDict.t string) (items : PyDict.t series)
  : PyDict.t string * PyDict.t series :=
  match items with
  | [] => (names, [])
  | (uid, data) :: rest =>
      let current := current_msg data in
      let '(new_messages, names1) :=
        match PyDict.get retrieved_users uid with
        | None => (current, names)
        | Some api_data =>
            (current + messages api_data, PyDict.set uid (user api_data) names)
        end in
      let '(names2, rest') := accumulate_day i retrieved_users names1 rest in
      (names2, (uid, data ++ [(i + 1, new_messages)]) :: rest')
  end.

(** [{x['discord_id']: x for x in api_data}] (line 85). *)
Definition retrieved_of (api_data : list StatSample) : PyDict.t StatSample :=
  PyDict.of_items (map (fun x => (discord_id x, x)) api_data).

(** [all([not x for x in graph_data.values()])] (line 103). *)
Definition all_series_empty (gd : PyDict.t series) : bool :=
  forallb (fun x => match x with [] => true | _ :: _ => false end)
          (PyDict.values gd).

(** [{data['discord_id']: data['user'] for data in api_data}]
    (lines 63-64). *)
Definition seed_names (api_data : list StatSample) : PyDict.t string :=
  PyDict.of_items (map (fun data => (discord_id data, user data)) api_data).

(** [{data['discord_id']: data['messages'] for data in api_data}]
    (lines 66-67). *)
Definition seed_totals (api_data : list StatSample) : PyDict.t Z :=
  PyDict.of_items (map (fun data => (discord_id data, messages data)) api_data).

(** [{uid: [[0, 0]] for uid in user_names}] (line 69). *)
Definition seed_graph (names : PyDict.t string) : PyDict.t series :=
  PyDict.of_items (map (fun uid => (uid, [(0, 0)])) (PyDict.keys names)).

(** [sum(data['messages'] for data in api_data)] (line 215). *)
Definition sum_messages (api_data : list StatSample) : Z :=
  fold_left Z.add (map messages api_data) 0.

Section Cog.

Variable E : env.

(** The query of the window fetch (lines 40-53). *)
Definition window_params (start limit : Z) (users : option (list Member))
  : request :=
  [param "start" (PTime start)]
  ++ (if limit >? 0 then [param "limit" (PInt limit)] else [])
  ++ match users with
     | Some us => map (fun u => param "discord_id" (PId (id u))) us
     | None => []
     end.

(** The query of a daily fetch (lines 75-78). *)
Definition day_params (startdate enddate : Z) (names : PyDict.t string)
  : request :=
  [param "start" (PTime startdate); param "end" (PTime enddate)]
  ++ map (fun uid => param "discord_id" (PId uid)) (PyDict.keys names).

(** [for i in range(days)] (lines 71-100), over the day indices still
    to be processed.  [None] stands for the early [return False]. *)
Fixpoint days_loop (days : Z) (indices : list Z)
    (names : PyDict.t string) (gd : PyDict.t series)
  : M (option (PyDict.t string * PyDict.t series)) :=
  match indices with
  | [] => ret (Some (names, gd))
  | i :: rest =>
      startdate <- days_ago E (days - i) ;;
      enddate <- days_ago E (days - i - 1) ;;
      response <- session_get E (day_params startdate enddate names) ;;
      if negb (status response =? 200) then ret None
      else
        let '(names', gd') :=
          accumulate_day i (retrieved_of (json response)) names gd in
        days_loop days rest names' gd'
  end.

(** Lines 38-100: the window fetch, the seeding and the daily loop. *)
Definition collect_series (days limit : Z) (users : option (list Member))
  : M (option SeriesSet) :=
  start <- days_ago E days ;;
  response <- session_get E (window_params start limit users) ;;
  if negb (status response =? 200) then ret None
  else
    match json response with
    | [] => ret None
    | (_ :: _) as api_data =>
        let names := seed_names api_data in
        let totals := seed_totals api_data in
        let gd := seed_graph names in
        r <- days_loop days (range days) names gd ;;
        match r with
        | None => ret None
        | Some (names', gd') => ret (Some (mkSeriesSet names' totals gd'))
        end
    end.

(** Lines 38-104: [collect_series] followed by the check that not every
    series is empty. *)
Definition build_series (days limit : Z) (users : option (list Member))
  : M (option SeriesSet) :=
  r <- collect_series days limit users ;;
  match r with
  | None => ret None
  | Some ss =>
      if all_series_empty (graph_data ss) then ret None else ret (Some ss)
  end.

(** Lines 107-112. *)
Fixpoint plot_lines (ss : SeriesSet) (items : PyDict.t series) : M unit :=
  match items with
  | [] => ret tt
  | (uid, data) :: rest =>
      name <- lift (index (user_names ss) uid) ;;
      total <- lift (index (num_messages ss) uid) ;;
      let templabel := (drop_last5 name ++ " " ++ str_of_int total)%string in
      plt_plot (mkLine (map fst data) (map snd data) templabel) ;;;
      plot_lines ss rest
  end.

(** Lines 107-123. *)
Definition render_series (days : Z) (ss : SeriesSet) : M unit :=
  plot_lines ss (graph_data ss) ;;;
  label_time <- days_ago E days ;;
  plt_savefig label_time ;;;
  plt_cla.

(** [create_graph_messages] (lines 37-125). *)
Definition create_graph_messages (days limit : Z)
    (users : option (list Member)) : M bool :=
  r <- build_series days limit users ;;
  match r with
  | None => ret false
  | Some ss => render_series days ss ;;; ret true
  end.

(** [graph top] (lines 142-159). *)
Definition top (n days : Z) : M returned :=
  let days := clamp days 1 30 in
  let n := clamp n 1 10 in
  ok <- create_graph_messages days n None ;;
  if ok : bool then
    file_to_send <- open_last_graph ;;
    ctx_send (SendFile file_to_send) ;;;
    ret ReturnedNone
  else
    ctx_send (SendText "Nothing found") ;;;
    ret ReturnedNone.

(** [graph users] (lines 164-182). *)
Definition users (members : list Member) (days : Z) : M returned :=
  match members with
  | [] => raise (BadArgument "Please specify at least 1 member")
  | _ :: _ =>
      let days := clamp days 1 30 in
      ok <- create_graph_messages days 0 (Some (firstn 10 members)) ;;
      if ok : bool then
        file_to_send <- open_last_graph ;;
        ctx_send (SendFile file_to_send) ;;;
        ret ReturnedNone
      else
        ctx_send (SendText "Nothing found") ;;;
        ret ReturnedNone
  end.

(** [for w in range(num_samples)] of [graph server] (lines 198-216),
    over the sample indices still to be fetched.  [None] stands for the
    early [return False]. *)
Fixpoint server_loop (sample_distance : Z) (ws : list Z)
    (acc : list (string * Z)) : M (option (list (string * Z))) :=
  match ws with
  | [] => ret (Some acc)
  | w :: rest =>
      start <- days_ago E ((w + 1) * sample_distance) ;;
      end_ <- days_ago E (w * sample_distance) ;;
      response <- session_get E [param "start" (PTime start);
                                 param "end" (PTime end_)] ;;
      if negb (status response =? 200) then ret None
      else
        match json response with
        | [] => ret None
        | (_ :: _) as api_data =>
            server_loop sample_distance rest
              (acc ++ [(strftime_b_d E end_, sum_messages api_data)])
        end
  end.

(** Lines 197-217 of [graph server]: the collected totals, oldest
    first. *)
Definition interval_totals (num_samples sample_distance : Z)
  : M (option (list (string * Z))) :=
  r <- server_loop sample_distance (range num_samples) [] ;;
  match r with
  | None => ret None
  | Some collected => ret (Some (rev collected))
  end.

(** [graph server] (lines 187-233). *)
Definition server (num_samples sample_distance : Z) : M returned :=
  r <- interval_totals num_samples sample_distance ;;
  match r with
  | None => ret ReturnedFalse
  | Some totals =>
      fig_render (map fst totals) (map snd totals) ;;;
      file_to_send <- open_last_graph ;;
      ctx_send (SendFile file_to_send) ;;;
      ret ReturnedNone
  end.

End Cog.

(* ================================================================== *)
(** ** Vocabulary of the statements *)

(** The value of the last item of [items] whose key is [k]. *)
Fixpoint last_with {V} (k : Z) (items : list (Z * V)) : option V :=
  match items with
  | [] => None
  | (k', v) :: rest =>
      match last_with k rest with
      | Some v' => Some v'
      | None => if k =? k' then Some v else None
      end
  end.

(** The row of a response that counts for [uid]: the last one carrying
    that identifier, if any. *)
Definition day_sample (r : response) (uid : Z) : option StatSample :=
  last_with uid (map (fun x => (discord_id x, x)) (json r)).

(** The messages a daily response adds to the total of [uid]. *)
Definition day_delta (r : response) (uid : Z) : Z :=
  match day_sample r uid with
  | Some s => messages s
  | None => 0
  end.

(** The points that the days [indices], answered by [resps], append to a
    series whose running total is [c]. *)
Fixpoint day_points (indices : list Z) (resps : list response) (uid : Z)
    (c : Z) : list point :=
  match indices, resps with
  | i :: indices', r :: resps' =>
      let c' := c + day_delta r uid in
      (i + 1, c') :: day_points indices' resps' uid c'
  | _, _ => []
  end.

(** The bodies of the daily loop for the days [indices], answered by
    [resps]. *)
Fixpoint accumulate_days (indices : list Z) (resps : list response)
    (names : PyDict.t string) (gd : PyDict.t series)
  : PyDict.t string * PyDict.t series :=
  match indices, resps with
  | i :: indices', r :: resps' =>
      let '(names', gd') := accumulate_day i (retrieved_of (json r)) names gd in
      accumulate_days indices' resps' names' gd'
  | _, _ => (names, gd)
  end.

(** The requests issued between two worlds, with their responses. *)
Definition exchanged (w w' : world) : list (request * response) :=
  skipn (List.length (log w)) (log w').

(** The responses received between two worlds, oldest first: position
    [0] is the window fetch of [create_graph_messages], position [1 + i]
    the fetch of day [i]. *)
Definition fetched (w w' : world) : list response :=
  map snd (exchanged w w').

Definition ok_status (e : request * response) : Prop := status (snd e) = 200.

(** Every count of a response is a non-negative integer. *)
Definition nonneg_response (r : response) : Prop :=
  Forall (fun s => 0 <= messages s) (json r).

(** Two worlds that differ at most in the number of clock readings. *)
Definition only_clock_read (w w' : world) : Prop :=
  log w' = log w /\ axes w' = axes w /\
  last_graph w' = last_graph w /\ sent w' = sent w.

(** Two worlds that differ at most in clock readings and requests. *)
Definition only_fetched (w w' : world) : Prop :=
  axes w' = axes w /\ last_graph w' = last_graph w /\ sent w' = sent w.

(** Cumulative counts never go down along a series. *)
Definition nondecreasing (s : series) : Prop :=
  forall i p q,
    nth_error s i = Some p -> nth_error s (S i) = Some q -> snd p <= snd q.

(** The window requested for sample [k] by [graph server] when the clock
    has been read [t0] times before the loop: [(start, end)]. *)
Definition sample_window (E : env) (t0 : nat) (distance : Z) (k : nat)
  : Z * Z :=
  (clock E (t0 + 2 * k) - (Z.of_nat k + 1) * distance * us_per_day,
   clock E (t0 + 2 * k + 1) - Z.of_nat k * distance * us_per_day).

(** The query of sample [k] of [graph server]. *)
Definition sample_request (E : env) (t0 : nat) (distance : Z) (k : nat)
  : request :=
  [param "start" (PTime (fst (sample_window E t0 distance k)));
   param "end" (PTime (snd (sample_window E t0 distance k)))].

(** The point drawn for sample [k] answered by [r]: the end date of its
    window and the sum of the returned counts. *)
Definition sample_point (E : env) (t0 : nat) (distance : Z)
    (kr : nat * response) : string * Z :=
  (strftime_b_d E (snd (sample_window E t0 distance (fst kr))),
   sum_messages (json (snd kr))).

(** The elements of a list with their positions, from [k0] on. *)
Definition numbered_from {A} (k0 : nat) (l : list A) : list (nat * A) :=
  combine (seq k0 (List.length l)) l.

(** The query of the window fetch issued from world [w]. *)
Definition window_request (E : env) (days limit : Z)
    (members : option (list Member)) (w : world) : request :=
  window_params (clock E (ticks w) - days * us_per_day) limit members.

(** A service that always answers 200, and one whose arrays are never
    empty. *)
Definition always_ok (E : env) : Prop :=
  forall k req, status (http E k req) = 200.
Definition never_empty (E : env) : Prop :=
  forall k req, json (http E k req) <> [].

(** A clock whose every reading is a [datetime] at least [span] days
    after [datetime.min]. *)
Definition clock_after (E : env) (span : Z) : Prop :=
  forall t, span * us_per_day <= clock E t < datetime_end.

(** *** A stub service, for running the cog on concrete inputs *)

Definition some_noon : Z := 738000 * us_per_day + us_per_day / 2.

(** Answers the [k]-th request with the [k]-th scripted response and
    with 404 once the script is over; the clock stands still and a label
    is the day number. *)
Definition stub (script : list response) : env :=
  mkEnv (fun k _ => nth k script (mkResponse 404 []))
        (fun _ => some_noon)
        (fun t => str_of_int (t / us_per_day)).

Definition fresh : world := mkWorld 0 [] [] None [].

Definition window_of_two : response :=
  mkResponse 200 [mkSample 7 "alice#0001" 5; mkSample 9 "bob#0002" 3].
Definition day_alice : response :=
  mkResponse 200 [mkSample 7 "alice#0001" 2].
Definition day_both : response :=
  mkResponse 200 [mkSample 9 "bobby#0002" 3; mkSample 7 "alice#0001" 3].
Definition unavailable : response := mkResponse 503 [].

(** One row per window, worth 10, 20 and 30 messages, in fetch order. *)
Definition three_windows : list response :=
  [mkResponse 200 [mkSample 1 "a#0001" 4; mkSample 2 "b#0002" 6];
   mkResponse 200 [mkSample 1 "a#0001" 20];
   mkResponse 200 [mkSample 2 "b#0002" 30]].

(** A run of two days over two users. *)
Definition two_days : env := stub [window_of_two; day_alice; day_both].
Definition two_days_run : result (option SeriesSet) * world :=
  build_series two_days 2 0 None fresh.
Definition two_days_series : SeriesSet :=
  match fst two_days_run with
  | Ok (Some ss) => ss
  | _ => mkSeriesSet [] [] []
  end.

(** The service is down from the start, or goes down on the second
    day. *)
Definition down : env := stub [unavailable].
Definition down_on_second_day : env :=
  stub [window_of_two; day_alice; unavailable; day_both].

(** *** Vocabulary of the further properties *)

(** The identifiers of a list, each kept once, in the order of their
    first occurrence: the key order of a dict filled from that list. *)
Definition first_seen (ids : list Z) : list Z :=
  fold_left (fun seen k => if existsb (Z.eqb k) seen then seen else seen ++ [k])
            ids [].

(** The messages of [uid] over the first [k] daily responses. *)
Definition messages_until (daily : list response) (uid : Z) (k : nat) : Z :=
  fold_right Z.add 0 (map (fun r => day_delta r uid) (firstn k daily)).

(** The name of [uid] after the daily responses [daily], starting from
    [name]: the one of the last response that carries the user. *)
Definition last_name (name : string) (daily : list response) (uid : Z)
  : string :=
  fold_left (fun n r => match day_sample r uid with
                        | Some s => user s
                        | None => n
                        end) daily name.

(** The query of the [j]-th pass of the daily loop, for day [i], when the
    clock had been read [t0] times before the loop and the known users
    are [ids]. *)
Definition day_request (E : env) (days : Z) (t0 j : nat) (i : Z)
    (ids : list Z) : request :=
  [param "start" (PTime (clock E (t0 + 2 * j) - (days - i) * us_per_day));
   param "end" (PTime (clock E (t0 + 2 * j + 1) - (days - i - 1) * us_per_day))]
  ++ map (fun uid => param "discord_id" (PId uid)) ids.

(** [l] is the line plotted for the entry [kv] of the graph data of
    [ss]. *)
Definition plotted (ss : SeriesSet) (kv : Z * series) (l : line) : Prop :=
  xaxis l = map fst (snd kv) /\
  yaxis l = map snd (snd kv) /\
  exists name total,
    PyDict.get (user_names ss) (fst kv) = Some name /\
    PyDict.get (num_messages ss) (fst kv) = Some total /\
    label l = (drop_last5 name ++ " " ++ str_of_int total)%string.

(** The reply block that [graph top] (lines 155-159) and [graph users]
    (lines 178-182) both end with. *)
Definition send_graph_or_nothing (ok : bool) : M returned :=
  if ok then
    file_to_send <- open_last_graph ;;
    ctx_send (SendFile file_to_send) ;;;
    ret ReturnedNone
  else
    ctx_send (SendText "Nothing found") ;;;
    ret ReturnedNone.

(** The number of characters of a string: that of its bytes that are not
    continuation bytes. *)
Definition utf8_length (s : string) : nat :=
  List.length (filter (fun b => negb (is_continuation b))
                      (list_ascii_of_string s)).

(** The string does not begin in the middle of a character. *)
Definition starts_character (s : string) : Prop :=
  match s with
  | EmptyString => True
  | String b _ => is_continuation b = false
  end.

(** A response that lets [graph server] go on. *)
Definition usable (r : response) : Prop := status r = 200 /\ json r <> [].

(** Twelve members. *)
Definition twelve_members : list Member :=
  mkMember 1 :: map (fun k => mkMember (Z.of_nat k)) (seq 2 11).

(** The two bytes of a lower-case e with an acute accent, a name of five
    characters that ends with two of them, and a discriminator that
    holds one. *)
Definition e_acute : string := String "195"%char (String "169"%char "").
Definition five_characters : string := ("jos" ++ e_acute ++ e_acute)%string.
Definition accented_discriminator : string := ("#" ++ e_acute ++ "001")%string.

(** A service that answers every request with the same two rows. *)
Definition steady : env :=
  mkEnv (fun _ _ => window_of_two) (fun _ => some_noon)
        (fun t => str_of_int (t / us_per_day)).

(* ================================================================== *)
(** ** Facts about dictionaries *)

Module PyDictFacts.
Import PyDict.

Lemma get_set_same {V} (d : t V) k v : get (set k v d) k = Some v.
Proof.
  induction d as [|[k' v'] rest IH]; simpl.
  - now rewrite Z.eqb_refl.
  - destruct (k =? k') eqn:Hk; simpl; rewrite Hk; auto.
Qed.

Lemma get_set_other {V} (d : t V) k k' v :
  k <> k' -> get (set k v d) k' = get d k'.
Proof.
  intros Hne. induction d as [|[k0 v0] rest IH]; simpl.
  - destruct (k' =? k) eqn:Hk; auto. apply Z.eqb_eq in Hk. congruence.
  - destruct (k =? k0) eqn:Hk; simpl.
    + apply Z.eqb_eq in Hk. subst k0.
      destruct (k' =? k) eqn:Hk'; auto.
      apply Z.eqb_eq in Hk'. congruence.
    + now rewrite IH.
Qed.

Lemma get_Some_In {V} (d : t V) k v : get d k = Some v -> In (k, v) d.
Proof.
  induction d as [|[k' v'] rest IH]; simpl; [discriminate|].
  destruct (k =? k') eqn:Hk; intros H.
  - apply Z.eqb_eq in Hk. inversion H. subst. now left.
  - right. auto.
Qed.

Lemma get_None_keys {V} (d : t V) k : get d k = None <-> ~ In k (keys d).
Proof.
  induction d as [|[k' v'] rest IH]; simpl.
  - tauto.
  - destruct (k =? k') eqn:Hk.
    + apply Z.eqb_eq in Hk. subst. split; [discriminate | tauto].
    + apply Z.eqb_neq in Hk. rewrite IH. split; intros H.
      * intros [H1|H1]; [congruence | tauto].
      * tauto.
Qed.

Lemma In_keys_get {V} (d : t V) k : In k (keys d) -> exists v, get d k = Some v.
Proof.
  intros Hin. destruct (get d k) eqn:Hg; eauto.
  apply get_None_keys in Hg. contradiction.
Qed.

Lemma last_with_None {V} (items : list (Z * V)) k :
  last_with k items = None <-> ~ In k (map fst items).
Proof.
  induction items as [|[k' v'] rest IH]; simpl.
  - tauto.
  - destruct (last_with k rest) eqn:Hl.
    + split; [discriminate|]. intros H. exfalso.
      assert (Hn : ~ In k (map fst rest)) by tauto.
      apply IH in Hn. discriminate.
    + destruct (k =? k') eqn:Hk.
      * apply Z.eqb_eq in Hk. subst. split; [discriminate | tauto].
      * apply Z.eqb_neq in Hk. split; auto. intros _ [H|H]; [congruence|].
        now apply IH in H.
Qed.

Lemma last_with_In {V} (items : list (Z * V)) k v :
  last_with k items = Some v -> In (k, v) items.
Proof.
  induction items as [|[k' v'] rest IH]; simpl; [discriminate|].
  destruct (last_with k rest) eqn:Hl.
  - intros H. inversion H. subst. right. auto.
  - destruct (k =? k') eqn:Hk; [|discriminate].
    apply Z.eqb_eq in Hk. intros H. inversion H. subst. now left.
Qed.

(** Filling a dict by successive assignments leaves under each key the
    value of the last item that carries it. *)
Lemma get_fold_set {V} (items : list (Z * V)) (d : t V) k :
  get (fold_left (fun d kv => set (fst kv) (snd kv) d) items d) k =
  match last_with k items with
  | Some v => Some v
  | None => get d k
  end.
Proof.
  revert d. induction items as [|[k' v'] rest IH]; intros d; simpl; auto.
  rewrite IH. destruct (last_with k rest); auto.
  destruct (k =? k') eqn:Hk.
  - apply Z.eqb_eq in Hk. subst. apply get_set_same.
  - apply Z.eqb_neq in Hk. apply get_set_other. congruence.
Qed.

Lemma get_of_items {V} (items : list (Z * V)) k :
  get (of_items items) k = last_with k items.
Proof.
  unfold of_items. rewrite get_fold_set. now destruct (last_with k items).
Qed.

Lemma In_keys_of_items {V} (items : list (Z * V)) k :
  In k (keys (of_items items)) <-> In k (map fst items).
Proof.
  split; intros H.
  - destruct (In_keys_get _ _ H) as [v Hv].
    rewrite get_of_items in Hv. apply last_with_In in Hv.
    apply in_map_iff. now exists (k, v).
  - destruct (get (of_items items) k) eqn:Hg.
    + apply get_Some_In in Hg. apply in_map_iff. now exists (k, v).
    + rewrite get_of_items in Hg. apply last_with_None in Hg. contradiction.
Qed.

(** A comprehension whose values are all [c]. *)
Lemma get_of_items_const {V} (items : list (Z * V)) (c : V) k :
  (forall kv, In kv items -> snd kv = c) ->
  In k (map fst items) -> get (of_items items) k = Some c.
Proof.
  intros Hc Hin. rewrite get_of_items.
  destruct (last_with k items) eqn:Hl.
  - apply last_with_In in Hl. apply Hc in Hl. simpl in Hl. now subst.
  - apply last_with_None in Hl. contradiction.
Qed.

End PyDictFacts.

(* ================================================================== *)
(** ** One day of accumulation *)

Section AccumulateDay.
Import PyDict.

Variable i : Z.
Variable retrieved : PyDict.t StatSample.

Lemma current_msg_snoc (data : series) (x c : Z) :
  current_msg (data ++ [(x, c)]) = c.
Proof.
  unfold current_msg.
  destruct (data ++ [(x, c)]) eqn:Happ.
  - destruct data; discriminate.
  - rewrite <- Happ, last_last. reflexivity.
Qed.

Lemma accumulate_day_keys names gd :
  keys (snd (accumulate_day i retrieved names gd)) = keys gd.
Proof.
  revert names. induction gd as [|[uid data] rest IH]; intros names; simpl; auto.
  destruct (get retrieved uid) as [s|];
    match goal with
    | |- context [accumulate_day i retrieved ?n rest] =>
        specialize (IH n); destruct (accumulate_day i retrieved n rest)
    end; simpl in *; now rewrite IH.
Qed.

(** The point appended to the series of a known user. *)
Lemma accumulate_day_get names gd uid data :
  get gd uid = Some data ->
  get (snd (accumulate_day i retrieved names gd)) uid =
  Some (data ++ [(i + 1,
                  current_msg data +
                  match get retrieved uid with
                  | Some s => messages s
                  | None => 0
                  end)]).
Proof.
  revert names. induction gd as [|[k d] rest IH]; intros names; simpl;
    [discriminate|].
  intros Hget.
  destruct (get retrieved k) as [s|] eqn:Hr;
    match goal with
    | |- context [accumulate_day i retrieved ?n rest] =>
        specialize (IH n); destruct (accumulate_day i retrieved n rest)
    end; simpl in *;
    destruct (uid =? k) eqn:Hk;
    try (apply Z.eqb_eq in Hk; subst k; inversion Hget; subst d;
         rewrite Hr; repeat f_equal; lia);
    auto.
Qed.

(** A name already equal to the one retrieved stays so. *)
Lemma accumulate_day_name_stable names gd uid s :
  get retrieved uid = Some s ->
  get names uid = Some (user s) ->
  get (fst (accumulate_day i retrieved names gd)) uid = Some (user s).
Proof.
  intros Hr. revert names.
  induction gd as [|[k d] rest IH]; intros names Hn; simpl; auto.
  destruct (get retrieved k) as [s'|] eqn:Hk.
  - assert (Hn' : get (set k (user s') names) uid = Some (user s)).
    { destruct (Z.eq_dec k uid) as [->|Hne].
      - rewrite PyDictFacts.get_set_same. congruence.
      - now rewrite PyDictFacts.get_set_other.
      }
    specialize (IH _ Hn').
    destruct (accumulate_day i retrieved (set k (user s') names) rest).
    exact IH.
  - specialize (IH _ Hn).
    destruct (accumulate_day i retrieved names rest). exact IH.
Qed.

(** The name of a known user found in the day's response is overwritten
    with the retrieved one. *)
Lemma accumulate_day_name_present names gd uid s :
  In uid (keys gd) ->
  get retrieved uid = Some s ->
  get (fst (accumulate_day i retrieved names gd)) uid = Some (user s).
Proof.
  intros Hin Hr. revert names Hin.
  induction gd as [|[k d] rest IH]; intros names Hin; simpl in *; [tauto|].
  destruct (Z.eq_dec k uid) as [->|Hne].
  - rewrite Hr.
    pose proof (accumulate_day_name_stable (set uid (user s) names) rest uid s Hr
                  (PyDictFacts.get_set_same _ _ _)) as Hst.
    destruct (accumulate_day i retrieved (set uid (user s) names) rest).
    exact Hst.
  - destruct Hin as [Hin|Hin]; [congruence|].
    destruct (get retrieved k) as [s'|];
      match goal with
      | |- context [accumulate_day i retrieved ?n rest] =>
          specialize (IH n Hin); destruct (accumulate_day i retrieved n rest)
      end; exact IH.
Qed.

(** The name of a user missing from the day's response is untouched. *)
Lemma accumulate_day_name_absent names gd uid :
  get retrieved uid = None ->
  get (fst (accumulate_day i retrieved names gd)) uid = get names uid.
Proof.
  intros Hr. revert names.
  induction gd as [|[k d] rest IH]; intros names; simpl; auto.
  destruct (get retrieved k) as [s'|] eqn:Hk.
  - specialize (IH (set k (user s') names)).
    destruct (accumulate_day i retrieved (set k (user s') names) rest).
    simpl in *. rewrite IH. apply PyDictFacts.get_set_other. congruence.
  - specialize (IH names).
    destruct (accumulate_day i retrieved names rest). exact IH.
Qed.

Lemma accumulate_day_nonempty names gd :
  Forall (fun kv => snd kv <> []) (snd (accumulate_day i retrieved names gd)).
Proof.
  revert names. induction gd as [|[k d] rest IH]; intros names; simpl; auto.
  destruct (get retrieved k) as [s'|];
    match goal with
    | |- context [accumulate_day i retrieved ?n rest] =>
        specialize (IH n); destruct (accumulate_day i retrieved n rest)
    end; simpl in *; constructor; auto; simpl; now destruct d.
Qed.

End AccumulateDay.

(* ================================================================== *)
(** ** Several days of accumulation *)

Lemma get_retrieved_of (r : response) (uid : Z) :
  PyDict.get (retrieved_of (json r)) uid = day_sample r uid.
Proof. apply PyDictFacts.get_of_items. Qed.

Lemma day_sample_None (r : response) (uid : Z) :
  day_sample r uid = None <-> ~ In uid (map discord_id (json r)).
Proof.
  unfold day_sample. rewrite PyDictFacts.last_with_None, map_map. simpl. tauto.
Qed.

Lemma day_sample_In (r : response) (uid : Z) (s : StatSample) :
  day_sample r uid = Some s -> In s (json r) /\ discord_id s = uid.
Proof.
  unfold day_sample. intros H. apply PyDictFacts.last_with_In in H.
  apply in_map_iff in H. destruct H as [x [Hx Hin]]. inversion Hx. subst. auto.
Qed.

Lemma length_day_points indices resps uid c :
  List.length (day_points indices resps uid c)
  = Nat.min (List.length indices) (List.length resps).
Proof.
  revert resps c. induction indices as [|i indices IH]; intros [|r resps] c;
    simpl; auto.
Qed.

(** The series of a known user after the days [indices]. *)
Lemma accumulate_days_get indices : forall resps names gd uid data,
  PyDict.get gd uid = Some data ->
  PyDict.get (snd (accumulate_days indices resps names gd)) uid =
  Some (data ++ day_points indices resps uid (current_msg data)).
Proof.
  induction indices as [|i indices IH]; intros [|r resps] names gd uid data Hg;
    simpl; try now rewrite app_nil_r.
  pose proof (accumulate_day_get i (retrieved_of (json r)) names gd uid data Hg)
    as Hday.
  destruct (accumulate_day i (retrieved_of (json r)) names gd) as [names' gd'].
  simpl in Hday. rewrite get_retrieved_of in Hday.
  rewrite (IH _ _ _ _ _ Hday), current_msg_snoc, <- app_assoc. reflexivity.
Qed.

Lemma accumulate_days_keys indices : forall resps names gd,
  PyDict.keys (snd (accumulate_days indices resps names gd)) = PyDict.keys gd.
Proof.
  induction indices as [|i indices IH]; intros [|r resps] names gd; simpl; auto.
  pose proof (accumulate_day_keys i (retrieved_of (json r)) names gd) as Hk.
  destruct (accumulate_day i (retrieved_of (json r)) names gd) as [names' gd'].
  simpl in Hk. now rewrite IH.
Qed.

Lemma accumulate_days_nonempty indices : forall resps names gd,
  Forall (fun kv => snd kv <> []) gd ->
  Forall (fun kv => snd kv <> []) (snd (accumulate_days indices resps names gd)).
Proof.
  induction indices as [|i indices IH]; intros [|r resps] names gd Hne;
    simpl; auto.
  pose proof (accumulate_day_nonempty i (retrieved_of (json r)) names gd) as Hd.
  destruct (accumulate_day i (retrieved_of (json r)) names gd) as [names' gd'].
  simpl in Hd. auto.
Qed.

Lemma day_delta_nonneg r uid : nonneg_response r -> 0 <= day_delta r uid.
Proof.
  unfold day_delta. intros Hr.
  destruct (day_sample r uid) as [s|] eqn:Hs; [|lia].
  apply day_sample_In in Hs. destruct Hs as [Hin _].
  unfold nonneg_response in Hr. rewrite Forall_forall in Hr. auto.
Qed.

Lemma day_points_nondecreasing indices : forall resps uid x c,
  Forall nonneg_response resps ->
  nondecreasing ((x, c) :: day_points indices resps uid c).
Proof.
  induction indices as [|i indices IH]; intros [|r resps] uid x c Hall;
    intros [|k] p q Hp Hq; simpl in *;
    try discriminate; try (destruct k; discriminate).
  - inversion Hp. inversion Hq. subst. simpl.
    inversion Hall. subst. pose proof (day_delta_nonneg r uid H1). lia.
  - inversion Hall. subst.
    eapply (IH resps uid (i + 1) (c + day_delta r uid) H2 k); eauto.
Qed.

(** Point [k + 1] of a series is point [k] plus what day [k] adds. *)
Lemma day_points_step indices : forall resps uid x c k i r,
  nth_error indices k = Some i ->
  nth_error resps k = Some r ->
  exists p,
    nth_error ((x, c) :: day_points indices resps uid c) k = Some p /\
    nth_error ((x, c) :: day_points indices resps uid c) (S k)
    = Some (i + 1, snd p + day_delta r uid).
Proof.
  induction indices as [|i0 indices IH]; intros [|r0 resps] uid x c k i r Hi Hr;
    try (destruct k; discriminate).
  destruct k as [|k]; simpl in *.
  - inversion Hi. inversion Hr. subst. eexists. split; reflexivity.
  - apply (IH resps uid (i0 + 1) (c + day_delta r0 uid) k i r Hi Hr).
Qed.

(* ================================================================== *)
(** ** Effects of the primitive operations *)

Lemma days_ago_spec E d w :
  only_clock_read w (snd (days_ago E d w)) /\
  ticks (snd (days_ago E d w)) = S (ticks w) /\
  forall t, fst (days_ago E d w) = Ok t ->
            t = clock E (ticks w) - d * us_per_day.
Proof.
  unfold days_ago, bind, utcnow, lift, timedelta, datetime_sub, only_clock_read.
  simpl.
  destruct (Z.abs d <=? 999999999); simpl.
  - destruct ((0 <=? _) && (_ <? datetime_end)); simpl;
      repeat split; auto; intros t Ht; inversion Ht; reflexivity.
  - repeat split; auto. intros t Ht. discriminate.
Qed.

Lemma days_ago_small E d w :
  Z.abs d <= 999999999 ->
  0 <= clock E (ticks w) - d * us_per_day < datetime_end ->
  fst (days_ago E d w) = Ok (clock E (ticks w) - d * us_per_day).
Proof.
  intros Hd Hr.
  unfold days_ago, bind, utcnow, lift, timedelta, datetime_sub. simpl.
  destruct (Z.abs d <=? 999999999) eqn:H1; [|apply Z.leb_gt in H1; lia].
  simpl.
  destruct (0 <=? _) eqn:H2; [|apply Z.leb_gt in H2; lia].
  destruct (_ <? datetime_end) eqn:H3; [|apply Z.ltb_ge in H3; lia].
  reflexivity.
Qed.

Lemma exchanged_app w w' entries :
  log w' = log w ++ entries -> exchanged w w' = entries.
Proof.
  unfold exchanged. intros ->.
  rewrite skipn_app, skipn_all, Nat.sub_diag. reflexivity.
Qed.

Lemma fetched_app w w' entries :
  log w' = log w ++ entries -> fetched w w' = map snd entries.
Proof. unfold fetched. intros H. now rewrite (exchanged_app _ _ _ H). Qed.

(** Destructs the next [days_ago] of the goal and records its effect. *)
Ltac step_days_ago E d w t w' :=
  let Hs := fresh "Hspec" in
  let Hc := fresh "Hclock" in
  let Ht := fresh "Hticks" in
  let Hv := fresh "Hval" in
  let Ho := fresh "Hout" in
  pose proof (days_ago_spec E d w) as Hs;
  destruct (days_ago E d w) as [[t|?e] w'] eqn:Ho;
  simpl in Hs; destruct Hs as [Hc [Ht Hv]];
  destruct Hc as (?Hlog & ?Haxes & ?Hfile & ?Hsent).

(* ================================================================== *)
(** ** The daily loop *)

Section DaysLoop.

Variable E : env.
Variable days : Z.

(** What the daily loop does to the log, by outcome. *)
Lemma days_loop_spec indices : forall names gd w res w',
  days_loop E days indices names gd w = (res, w') ->
  exists entries,
    log w' = log w ++ entries /\
    only_fetched w w' /\
    match res with
    | Ok (Some st) =>
        List.length entries = List.length indices /\
        Forall ok_status entries /\
        st = accumulate_days indices (map snd entries) names gd
    | Ok None =>
        exists passed failing,
          entries = passed ++ [failing] /\
          (List.length passed < List.length indices)%nat /\
          Forall ok_status passed /\
          status (snd failing) <> 200
    | Raise _ =>
        (List.length entries < List.length indices)%nat /\
        Forall ok_status entries
    end.
Proof.
  induction indices as [|i indices IH]; intros names gd w res w' Hrun.
  - inversion Hrun. subst. exists []. simpl. rewrite app_nil_r.
    unfold only_fetched. auto.
  - simpl in Hrun. unfold bind at 1 in Hrun.
    step_days_ago E (days - i) w startdate w1.
    2:{ inversion Hrun. subst. exists []. simpl. rewrite app_nil_r.
        unfold only_fetched. repeat split; try congruence; auto; simpl; lia. }
    unfold bind at 1 in Hrun.
    step_days_ago E (days - i - 1) w1 enddate w2.
    2:{ inversion Hrun. subst. exists []. simpl. rewrite app_nil_r.
        unfold only_fetched. repeat split; try congruence; auto; simpl; lia. }
    unfold bind at 1, session_get at 1 in Hrun.
    set (req := day_params startdate enddate names) in Hrun.
    set (r := http E (List.length (log w2)) req) in Hrun.
    set (w3 := mkWorld _ _ _ _ _) in Hrun.
    assert (Hw3 : log w3 = log w ++ [(req, r)] /\ only_fetched w w3).
    { unfold only_fetched, w3. simpl. repeat split; congruence. }
    clearbody w3. destruct Hw3 as [Hl3 (Ha3 & Hf3 & Hs3)].
    destruct (status r =? 200) eqn:Hst; simpl in Hrun.
    + apply Z.eqb_eq in Hst.
      destruct (accumulate_day i (retrieved_of (json r)) names gd)
        as [names' gd'] eqn:Hacc.
      destruct (IH names' gd' w3 res w' Hrun) as [entries [Hl [Hframe Hres]]].
      exists ((req, r) :: entries). split; [|split].
      * rewrite Hl, Hl3, <- app_assoc. reflexivity.
      * unfold only_fetched in *. destruct Hframe as (Ha & Hf & Hs).
        repeat split; congruence.
      * destruct res as [[st|]|e].
        -- destruct Hres as (Hlen & Hall & Hstate). simpl.
           rewrite Hacc. repeat split; auto.
        -- destruct Hres as (passed & failing & Hent & Hlen & Hall & Hbad).
           exists ((req, r) :: passed), failing. simpl.
           repeat split; auto; [congruence | lia].
        -- destruct Hres as (Hlen & Hall). simpl. split; [lia|].
           constructor; auto.
    + apply Z.eqb_neq in Hst. inversion Hrun. subst.
      exists [(req, r)]. split; [|split]; auto.
      * unfold only_fetched. auto.
      * exists [], (req, r). simpl. repeat split; auto. lia.
Qed.

End DaysLoop.

(* ================================================================== *)
(** ** Seeding *)

Lemma In_set {V} (d : PyDict.t V) k v kv :
  In kv (PyDict.set k v d) -> kv = (k, v) \/ In kv d.
Proof.
  induction d as [|[k' v'] rest IH]; simpl.
  - intros [H|[]]. now left.
  - destruct (k =? k') eqn:Hk; simpl.
    + apply Z.eqb_eq in Hk. subst. intros [H|H]; auto.
    + intros [H|H]; auto. destruct (IH H); auto.
Qed.

Lemma In_of_items {V} (items : list (Z * V)) kv :
  In kv (PyDict.of_items items) -> In kv items.
Proof.
  unfold PyDict.of_items.
  assert (Hgen : forall d,
             In kv (fold_left (fun d kv => PyDict.set (fst kv) (snd kv) d) items d) ->
             In kv items \/ In kv d).
  { induction items as [|[k v] rest IH]; intros d H; simpl in *; auto.
    destruct (IH _ H) as [H1|H1]; auto.
    apply In_set in H1. destruct H1 as [H1|H1]; auto. }
  intros H. destruct (Hgen [] H) as [H1|[]]. exact H1.
Qed.

Lemma seed_graph_get api_data s :
  In s api_data ->
  PyDict.get (seed_graph (seed_names api_data)) (discord_id s) = Some [(0, 0)].
Proof.
  intros Hin. unfold seed_graph.
  apply PyDictFacts.get_of_items_const.
  - intros kv Hkv. apply in_map_iff in Hkv. destruct Hkv as [uid [<- _]].
    reflexivity.
  - rewrite map_map. simpl. rewrite map_id.
    unfold seed_names. apply PyDictFacts.In_keys_of_items.
    rewrite map_map. simpl. now apply in_map.
Qed.

Lemma seed_graph_nonempty names :
  Forall (fun kv => snd kv <> []) (seed_graph names).
Proof.
  apply Forall_forall. intros kv Hin. unfold seed_graph in Hin.
  apply In_of_items in Hin. apply in_map_iff in Hin.
  destruct Hin as [uid [<- _]]. simpl. discriminate.
Qed.

Lemma seed_graph_inhabited api_data :
  api_data <> [] -> seed_graph (seed_names api_data) <> [].
Proof.
  destruct api_data as [|s rest]; [congruence|]. intros _ Hnil.
  pose proof (seed_graph_get (s :: rest) s (or_introl eq_refl)) as Hg.
  rewrite Hnil in Hg. discriminate.
Qed.

Lemma all_series_empty_false gd :
  gd <> [] -> Forall (fun kv => snd kv <> []) gd -> all_series_empty gd = false.
Proof.
  destruct gd as [|[k d] rest]; [congruence|]. intros _ Hall.
  inversion Hall as [|? ? Hd _]. subst. simpl in Hd.
  unfold all_series_empty. simpl. now destruct d.
Qed.

(** After any number of days, a seeded graph has a series and no empty
    one. *)
Lemma seeded_days_not_all_empty api_data indices resps :
  api_data <> [] ->
  let gd := snd (accumulate_days indices resps (seed_names api_data)
                                 (seed_graph (seed_names api_data))) in
  gd <> [] /\ Forall (fun kv => snd kv <> []) gd.
Proof.
  intros Hne gd. split.
  - intros Hnil.
    pose proof (accumulate_days_keys indices resps (seed_names api_data)
                  (seed_graph (seed_names api_data))) as Hk.
    fold gd in Hk. rewrite Hnil in Hk. simpl in Hk.
    apply (seed_graph_inhabited api_data Hne).
    destruct (seed_graph (seed_names api_data)); [reflexivity | discriminate].
  - apply accumulate_days_nonempty, seed_graph_nonempty.
Qed.

(* ================================================================== *)
(** ** The window fetch followed by the daily loop *)

Section CollectSeries.

Variable E : env.
Variables days limit : Z.
Variable members : option (list Member).

(** What [collect_series] does to the log, by outcome. *)
Lemma collect_series_spec w res w' :
  collect_series E days limit members w = (res, w') ->
  exists entries,
    log w' = log w ++ entries /\
    only_fetched w w' /\
    match res with
    | Ok (Some ss) =>
        exists r0 daily,
          entries = (window_request E days limit members w, r0) :: daily /\
          status r0 = 200 /\ json r0 <> [] /\
          List.length daily = Z.to_nat days /\
          Forall ok_status daily /\
          (user_names ss, graph_data ss)
          = accumulate_days (range days) (map snd daily)
              (seed_names (json r0)) (seed_graph (seed_names (json r0))) /\
          num_messages ss = seed_totals (json r0)
    | Ok None =>
        exists r0,
          (entries = [(window_request E days limit members w, r0)] /\
           (status r0 <> 200 \/ json r0 = []))
          \/
          (exists passed failing,
              entries = (window_request E days limit members w, r0) :: passed ++ [failing] /\
              status r0 = 200 /\ json r0 <> [] /\
              (List.length passed < Z.to_nat days)%nat /\
              Forall ok_status passed /\
              status (snd failing) <> 200)
    | Raise _ =>
        entries = [] \/
        exists r0 daily,
          entries = (window_request E days limit members w, r0) :: daily /\
          status r0 = 200 /\ json r0 <> [] /\
          (List.length daily < Z.to_nat days)%nat /\
          Forall ok_status daily
    end.
Proof.
  intros Hrun. unfold collect_series in Hrun.
  unfold bind at 1 in Hrun.
  step_days_ago E days w start w1.
  2:{ inversion Hrun. subst. exists []. rewrite app_nil_r.
      unfold only_fetched. repeat split; auto. }
  rewrite (Hval start eq_refl) in Hrun.
  fold (window_request E days limit members w) in Hrun.
  unfold bind at 1, session_get at 1 in Hrun.
  set (r := http E (List.length (log w1)) (window_request E days limit members w)) in Hrun.
  set (w2 := mkWorld _ _ _ _ _) in Hrun.
  assert (Hw2 : log w2 = log w ++ [(window_request E days limit members w, r)] /\ only_fetched w w2).
  { unfold only_fetched, w2. simpl. repeat split; congruence. }
  clearbody w2. destruct Hw2 as [Hl2 (Ha2 & Hf2 & Hs2)].
  assert (Hrange : List.length (range days) = Z.to_nat days).
  { unfold range. now rewrite length_map, length_seq. }
  destruct (status r =? 200) eqn:Hst; simpl in Hrun.
  2:{ apply Z.eqb_neq in Hst. inversion Hrun. subst.
      exists [(window_request E days limit members w, r)]. unfold only_fetched.
      repeat split; auto. exists r. left. auto. }
  apply Z.eqb_eq in Hst.
  destruct (json r) as [|s0 api_rest] eqn:Hjson.
  { inversion Hrun. subst.
    exists [(window_request E days limit members w, r)]. unfold only_fetched.
    repeat split; auto. exists r. left. auto. }
  rewrite <- Hjson in Hrun.
  assert (Hne : json r <> []) by (rewrite Hjson; discriminate).
  clear Hjson.
  unfold bind at 1 in Hrun.
  destruct (days_loop E days (range days) (seed_names (json r))
              (seed_graph (seed_names (json r))) w2)
    as [res2 w3] eqn:Hloop.
  destruct (days_loop_spec E days _ _ _ _ _ _ Hloop)
    as [daily [Hl3 [(Ha3 & Hf3 & Hs3) Hres]]].
  assert (Hlog3 : log w3 = log w ++ (window_request E days limit members w, r) :: daily).
  { rewrite Hl3, Hl2, <- app_assoc. reflexivity. }
  assert (Hframe3 : only_fetched w w3).
  { unfold only_fetched. repeat split; congruence. }
  rewrite Hrange in Hres.
  destruct res2 as [[[names' gd']|]|e]; inversion Hrun; subst; clear Hrun.
  - destruct Hres as (Hlen & Hall & Hstate).
    exists ((window_request E days limit members w, r) :: daily).
    split; [exact Hlog3 | split; [exact Hframe3 |]].
    exists r, daily. simpl. repeat split; auto.
  - destruct Hres as (passed & failing & Hent & Hlen & Hall & Hbad).
    exists ((window_request E days limit members w, r) :: daily).
    split; [exact Hlog3 | split; [exact Hframe3 |]].
    exists r. right. exists passed, failing. subst daily. repeat split; auto.
  - destruct Hres as (Hlen & Hall).
    exists ((window_request E days limit members w, r) :: daily).
    split; [exact Hlog3 | split; [exact Hframe3 |]].
    right. exists r, daily. repeat split; auto.
Qed.

(** The check of line 103 never fires: [build_series] is
    [collect_series]. *)
Lemma build_series_collect w :
  build_series E days limit members w = collect_series E days limit members w.
Proof.
  unfold build_series, bind.
  destruct (collect_series E days limit members w) as [[[ss|]|e] w'] eqn:Hrun;
    auto.
  destruct (collect_series_spec _ _ _ Hrun) as [entries [_ [_ Hres]]].
  destruct Hres as (r0 & daily & _ & _ & Hne & _ & _ & Hstate & _).
  pose proof (seeded_days_not_all_empty (json r0) (range days)
                (map snd daily) Hne) as Hinv.
  simpl in Hinv. rewrite <- Hstate in Hinv. simpl in Hinv.
  destruct Hinv as [H1 H2].
  now rewrite (all_series_empty_false _ H1 H2).
Qed.

End CollectSeries.

(* ================================================================== *)
(** ** Rendering and [create_graph_messages] *)

Section CreateGraphMessages.

Variable E : env.

Lemma plot_lines_frame ss items : forall w res w',
  plot_lines ss items w = (res, w') ->
  log w' = log w /\ sent w' = sent w /\ ticks w' = ticks w.
Proof.
  induction items as [|[uid data] rest IH]; intros w res w' Hrun; simpl in Hrun.
  - inversion Hrun. auto.
  - unfold bind at 1, lift at 1 in Hrun.
    destruct (index (user_names ss) uid) as [name|e];
      [|inversion Hrun; auto].
    unfold bind at 1, lift at 1 in Hrun.
    destruct (index (num_messages ss) uid) as [total|e];
      [|inversion Hrun; auto].
    unfold bind at 1, plt_plot at 1 in Hrun.
    apply IH in Hrun. simpl in Hrun. exact Hrun.
Qed.

Lemma render_series_frame days ss w res w' :
  render_series E days ss w = (res, w') ->
  log w' = log w /\ sent w' = sent w.
Proof.
  unfold render_series. intros Hrun. unfold bind at 1 in Hrun.
  destruct (plot_lines ss (graph_data ss) w) as [[[]|e] w1] eqn:Hplot;
    apply plot_lines_frame in Hplot; destruct Hplot as (Hl1 & Hs1 & _).
  2:{ inversion Hrun. subst. auto. }
  unfold bind at 1 in Hrun.
  step_days_ago E days w1 label_time w2.
  2:{ inversion Hrun. subst. split; congruence. }
  unfold bind, plt_savefig, plt_cla in Hrun. inversion Hrun. simpl.
  split; congruence.
Qed.

(** [create_graph_messages] issues the requests of [collect_series] and
    no other; it answers [False] exactly when [collect_series] gives
    up, and [True] only when it produced a series set. *)
Lemma create_graph_messages_spec days limit members w res w' :
  create_graph_messages E days limit members w = (res, w') ->
  exists res1 w1,
    collect_series E days limit members w = (res1, w1) /\
    log w' = log w1 /\ sent w' = sent w1 /\
    match res1 with
    | Ok None => res = Ok false
    | Ok (Some ss) => res <> Ok false
    | Raise e => res = Raise e
    end.
Proof.
  unfold create_graph_messages.
  intros Hrun. unfold bind at 1 in Hrun.
  rewrite build_series_collect in Hrun.
  destruct (collect_series E days limit members w) as [[[ss|]|e] w1] eqn:Hc;
    exists (fst (collect_series E days limit members w)),
           (snd (collect_series E days limit members w));
    rewrite Hc; simpl.
  - unfold bind at 1 in Hrun.
    destruct (render_series E days ss w1) as [[[]|e] w2] eqn:Hr;
      apply render_series_frame in Hr; destruct Hr as [Hl Hs];
      inversion Hrun; subst; repeat split; auto; discriminate.
  - inversion Hrun. subst. auto.
  - inversion Hrun. subst. auto.
Qed.

End CreateGraphMessages.

Lemma ok_status_nth entries i r :
  Forall ok_status entries ->
  nth_error (map snd entries) i = Some r -> status r = 200.
Proof.
  intros Hall Hn. apply nth_error_In in Hn. apply in_map_iff in Hn.
  destruct Hn as [e [<- Hin]]. rewrite Forall_forall in Hall. now apply Hall.
Qed.

Lemma get_seed_graph_value names uid data :
  PyDict.get (seed_graph names) uid = Some data -> data = [(0, 0)].
Proof.
  intros Hg. apply PyDictFacts.get_Some_In in Hg.
  unfold seed_graph in Hg. apply In_of_items in Hg.
  apply in_map_iff in Hg. destruct Hg as [k [Hk _]]. now inversion Hk.
Qed.

(** The series of a successful run, user by user: the seed followed by
    one point per day. *)
Lemma build_series_shape E days limit members w ss w' :
  build_series E days limit members w = (Ok (Some ss), w') ->
  exists r0 daily,
    fetched w w' = r0 :: daily /\
    json r0 <> [] /\
    List.length daily = Z.to_nat days /\
    (forall s, In s (json r0) -> In (discord_id s) (PyDict.keys (graph_data ss))) /\
    forall uid data,
      PyDict.get (graph_data ss) uid = Some data ->
      data = (0, 0) :: day_points (range days) daily uid 0.
Proof.
  rewrite build_series_collect. intros Hrun.
  destruct (collect_series_spec _ _ _ _ _ _ _ Hrun) as [entries [Hl [_ Hres]]].
  destruct Hres as (r0 & daily & Hent & Hst & Hne & Hlen & Hall & Hstate & _).
  exists r0, (map snd daily). subst entries.
  assert (Hgd : graph_data ss
                = snd (accumulate_days (range days) (map snd daily)
                         (seed_names (json r0))
                         (seed_graph (seed_names (json r0)))))
    by now rewrite <- Hstate.
  repeat split; auto.
  - now rewrite (fetched_app _ _ _ Hl).
  - now rewrite length_map.
  - intros s Hs. rewrite Hgd, accumulate_days_keys.
    pose proof (seed_graph_get _ _ Hs) as Hg.
    apply PyDictFacts.get_Some_In in Hg.
    apply in_map_iff. now exists (discord_id s, [(0, 0)]).
  - intros uid data Hg.
    assert (Hin : In uid (PyDict.keys (seed_graph (seed_names (json r0))))).
    { rewrite <- (accumulate_days_keys (range days) (map snd daily)
                    (seed_names (json r0))), <- Hgd.
      apply PyDictFacts.get_Some_In in Hg.
      apply in_map_iff. now exists (uid, data). }
    destruct (PyDictFacts.In_keys_get _ _ Hin) as [d0 Hd0].
    pose proof (get_seed_graph_value _ _ _ Hd0). subst d0.
    rewrite Hgd, (accumulate_days_get _ _ _ _ _ _ Hd0) in Hg.
    inversion Hg. reflexivity.
Qed.

Lemma nth_error_range n i :
  (i < Z.to_nat n)%nat -> nth_error (range n) i = Some (Z.of_nat i).
Proof.
  intros Hi. unfold range.
  rewrite nth_error_map, (nth_error_nth' _ 0%nat) by now rewrite length_seq.
  rewrite seq_nth by exact Hi. reflexivity.
Qed.

(* ================================================================== *)
(** ** Runs that cannot fail

    With a service that always answers 200 with data and a clock far
    enough from [datetime.min], nothing raises and every fetch goes
    through: the hypotheses of the theorems about successful runs are
    met by all such environments. *)

Section Progress.

Variable E : env.

Lemma days_ago_ok d span w :
  clock_after E span -> 0 <= d <= span -> span <= 999999999 ->
  days_ago E d w
  = (Ok (clock E (ticks w) - d * us_per_day),
     mkWorld (S (ticks w)) (log w) (axes w) (last_graph w) (sent w)).
Proof.
  intros Hclock Hd Hspan. specialize (Hclock (ticks w)).
  assert (Hus : 0 < us_per_day) by reflexivity.
  pose proof (days_ago_small E d w ltac:(lia) ltac:(nia)) as Hv.
  revert Hv.
  unfold days_ago, bind, utcnow, lift. simpl.
  destruct (timedelta d) as [delta|e]; simpl; [|discriminate].
  destruct (datetime_sub (clock E (ticks w)) delta) as [t|e]; simpl;
    [|discriminate].
  intros Hv. inversion Hv. reflexivity.
Qed.

Lemma days_loop_succeeds days indices : forall names gd w,
  clock_after E days -> days <= 999999999 -> always_ok E ->
  Forall (fun i => 0 <= i < days) indices ->
  exists st w', days_loop E days indices names gd w = (Ok (Some st), w').
Proof.
  induction indices as [|i indices IH]; intros names gd w Hclock Hdays Hok Hall.
  - simpl. unfold ret. eauto.
  - inversion Hall as [|? ? Hi Hrest]. subst. simpl.
    unfold bind at 1.
    rewrite (days_ago_ok (days - i) days) by (auto; lia).
    unfold bind at 1.
    rewrite (days_ago_ok (days - i - 1) days) by (auto; lia).
    unfold bind at 1, session_get at 1. rewrite Hok. simpl.
    destruct (accumulate_day i _ names gd) as [names' gd'].
    apply IH; auto.
Qed.

Lemma range_bounds n i : In i (range n) -> 0 <= i < n.
Proof.
  unfold range. intros Hin. apply in_map_iff in Hin.
  destruct Hin as [k [<- Hk]]. apply in_seq in Hk. lia.
Qed.

(** The series are built whenever the service answers. *)
Lemma build_series_succeeds days limit members w :
  0 <= days <= 999999999 ->
  clock_after E days -> always_ok E -> never_empty E ->
  exists ss w', build_series E days limit members w = (Ok (Some ss), w').
Proof.
  intros Hdays Hclock Hok Hdata. rewrite build_series_collect.
  unfold collect_series. unfold bind at 1.
  rewrite (days_ago_ok days days) by (auto; lia).
  unfold bind at 1, session_get at 1. rewrite Hok. simpl.
  match goal with
  | |- context [json ?r] => pose proof (Hdata (List.length (log w))
      (window_params (clock E (ticks w) - days * us_per_day) limit members))
      as Hne; destruct (json r) as [|s0 rest] eqn:Hj; [contradiction|]
  end.
  rewrite <- Hj. unfold bind at 1.
  match goal with
  | |- context [days_loop E days (range days) ?n ?g ?w2] =>
      destruct (days_loop_succeeds days (range days) n g w2)
        as ([names' gd'] & w3 & Hloop);
      auto; [lia | apply Forall_forall; exact (range_bounds days) |]
  end.
  rewrite Hloop. unfold ret. eauto.
Qed.

End Progress.

(* ================================================================== *)
(** ** Rendering cannot miss a key *)

Lemma set_keeps {V} (d : PyDict.t V) k v uid :
  PyDict.get d uid <> None -> PyDict.get (PyDict.set k v d) uid <> None.
Proof.
  intros H. destruct (Z.eq_dec k uid) as [->|Hne].
  - rewrite PyDictFacts.get_set_same. discriminate.
  - now rewrite PyDictFacts.get_set_other.
Qed.

Lemma accumulate_day_names_keep i retrieved gd : forall names uid,
  PyDict.get names uid <> None ->
  PyDict.get (fst (accumulate_day i retrieved names gd)) uid <> None.
Proof.
  induction gd as [|[k d] rest IH]; intros names uid Hn; simpl; auto.
  destruct (PyDict.get retrieved k) as [s|].
  - specialize (IH (PyDict.set k (user s) names) uid (set_keeps _ _ _ _ Hn)).
    destruct (accumulate_day i retrieved (PyDict.set k (user s) names) rest).
    exact IH.
  - specialize (IH names uid Hn).
    destruct (accumulate_day i retrieved names rest). exact IH.
Qed.

Lemma accumulate_days_names_keep indices : forall resps names gd uid,
  PyDict.get names uid <> None ->
  PyDict.get (fst (accumulate_days indices resps names gd)) uid <> None.
Proof.
  induction indices as [|i indices IH]; intros [|r resps] names gd uid Hn;
    simpl; auto.
  pose proof (accumulate_day_names_keep i (retrieved_of (json r)) gd names uid Hn)
    as Hday.
  destruct (accumulate_day i (retrieved_of (json r)) names gd) as [names' gd'].
  apply IH. exact Hday.
Qed.

Lemma plot_lines_ok ss items : forall w,
  (forall uid, In uid (PyDict.keys items) ->
               PyDict.get (user_names ss) uid <> None /\
               PyDict.get (num_messages ss) uid <> None) ->
  exists w', plot_lines ss items w = (Ok tt, w').
Proof.
  induction items as [|[uid data] rest IH]; intros w Hkeys; simpl.
  - unfold ret. eauto.
  - destruct (Hkeys uid (or_introl eq_refl)) as [Hn Ht].
    unfold bind at 1, lift at 1, index.
    destruct (PyDict.get (user_names ss) uid) as [name|]; [|congruence].
    unfold bind at 1, lift at 1.
    destruct (PyDict.get (num_messages ss) uid) as [total|]; [|congruence].
    unfold bind at 1, plt_plot at 1.
    apply IH. intros uid' Hin. apply Hkeys. now right.
Qed.

(** In a series set that was built, every plotted user has a name and a
    window total. *)
Lemma build_series_keys E days limit members w ss w' uid :
  build_series E days limit members w = (Ok (Some ss), w') ->
  In uid (PyDict.keys (graph_data ss)) ->
  PyDict.get (user_names ss) uid <> None /\
  PyDict.get (num_messages ss) uid <> None.
Proof.
  rewrite build_series_collect. intros Hrun Hin.
  destruct (collect_series_spec _ _ _ _ _ _ _ Hrun) as [entries [_ [_ Hres]]].
  destruct Hres as (r0 & daily & _ & _ & _ & _ & _ & Hstate & Htotals).
  assert (Hn : user_names ss
               = fst (accumulate_days (range days) (map snd daily)
                        (seed_names (json r0))
                        (seed_graph (seed_names (json r0)))))
    by now rewrite <- Hstate.
  assert (Hg : graph_data ss
               = snd (accumulate_days (range days) (map snd daily)
                        (seed_names (json r0))
                        (seed_graph (seed_names (json r0)))))
    by now rewrite <- Hstate.
  rewrite Hg, accumulate_days_keys in Hin.
  unfold seed_graph in Hin. apply (proj1 (PyDictFacts.In_keys_of_items _ _)) in Hin.
  rewrite map_map in Hin. simpl in Hin. rewrite map_id in Hin.
  split.
  - rewrite Hn. apply accumulate_days_names_keep.
    destruct (PyDictFacts.In_keys_get _ _ Hin) as [v Hv]. congruence.
  - rewrite Htotals.
    unfold seed_names in Hin. apply (proj1 (PyDictFacts.In_keys_of_items _ _)) in Hin.
    rewrite map_map in Hin. simpl in Hin.
    assert (Hin' : In uid (PyDict.keys (seed_totals (json r0)))).
    { unfold seed_totals. apply PyDictFacts.In_keys_of_items.
      rewrite map_map. exact Hin. }
    destruct (PyDictFacts.In_keys_get _ _ Hin') as [v Hv]. congruence.
Qed.

(** [create_graph_messages] answers [True] whenever the service
    answers. *)
Lemma create_graph_messages_succeeds E days limit members w :
  0 <= days <= 999999999 ->
  clock_after E days -> always_ok E -> never_empty E ->
  fst (create_graph_messages E days limit members w) = Ok true.
Proof.
  intros Hdays Hclock Hok Hdata.
  destruct (build_series_succeeds E days limit members w Hdays Hclock Hok Hdata)
    as (ss & w1 & Hb).
  unfold create_graph_messages. unfold bind at 1. rewrite Hb.
  unfold bind at 1, render_series. unfold bind at 1.
  destruct (plot_lines_ok ss (graph_data ss) w1) as [w2 Hplot].
  { intros uid. now apply (build_series_keys E days limit members w ss w1). }
  rewrite Hplot. unfold bind at 1.
  rewrite (days_ago_ok E days days) by (auto; lia).
  reflexivity.
Qed.

(* ================================================================== *)
(** ** Properties of the per-user series *)

(** C1: for every [days >= 1], when the series are built successfully,
    every user returned by the window fetch has a series of exactly
    [days + 1] points, the first of which is the starting point
    [(0, 0)]. *)
Theorem series_has_one_point_per_day_plus_start
    E days limit members w ss w' r0 s :
  1 <= days ->
  build_series E days limit members w = (Ok (Some ss), w') ->
  nth_error (fetched w w') 0 = Some r0 ->
  In s (json r0) ->
  exists data,
    PyDict.get (graph_data ss) (discord_id s) = Some data /\
    Z.of_nat (List.length data) = days + 1 /\
    nth_error data 0 = Some (0, 0).
Proof.
  intros Hdays Hrun Hr0 Hs.
  destruct (build_series_shape _ _ _ _ _ _ _ Hrun)
    as (r0' & daily & Hf & _ & Hlen & Hkeys & Hshape).
  rewrite Hf in Hr0. inversion Hr0. subst r0'.
  destruct (PyDictFacts.In_keys_get _ _ (Hkeys s Hs)) as [data Hg].
  exists data. split; [exact Hg|].
  rewrite (Hshape _ _ Hg). split; [|reflexivity].
  simpl. rewrite length_day_points, Hlen.
  unfold range. rewrite length_map, length_seq. lia.
Qed.

Lemma series_has_one_point_per_day_plus_start_witness :
  exists data,
    PyDict.get (graph_data two_days_series) 7 = Some data /\
    Z.of_nat (List.length data) = 2 + 1 /\
    nth_error data 0 = Some (0, 0).
Proof.
  apply (series_has_one_point_per_day_plus_start
           two_days 2 0 None fresh two_days_series (snd two_days_run)
           window_of_two (mkSample 7 "alice#0001" 5)).
  - lia.
  - reflexivity.
  - reflexivity.
  - simpl. auto.
Defined.

(** C2: when the series are built successfully and every count returned
    by the service is non-negative, the cumulative counts of each series
    never decrease from one point to the next. *)
Theorem series_counts_nondecreasing E days limit members w ss w' :
  build_series E days limit members w = (Ok (Some ss), w') ->
  Forall nonneg_response (fetched w w') ->
  forall uid data,
    PyDict.get (graph_data ss) uid = Some data ->
    forall i p q,
      nth_error data i = Some p -> nth_error data (S i) = Some q ->
      snd p <= snd q.
Proof.
  intros Hrun Hall uid data Hg.
  destruct (build_series_shape _ _ _ _ _ _ _ Hrun)
    as (r0 & daily & Hf & _ & _ & _ & Hshape).
  rewrite Hf in Hall. inversion Hall as [|? ? _ Hdaily]. subst.
  rewrite (Hshape _ _ Hg).
  apply (day_points_nondecreasing (range days) daily uid 0 0 Hdaily).
Qed.

Lemma series_counts_nondecreasing_witness :
  snd (0, 0) <= snd (1, 2).
Proof.
  apply (series_counts_nondecreasing
           two_days 2 0 None fresh two_days_series (snd two_days_run)
           eq_refl) with (uid := 7) (data := [(0, 0); (1, 2); (2, 5)])
                         (i := 0%nat).
  - repeat constructor; simpl; lia.
  - reflexivity.
  - reflexivity.
  - reflexivity.
Defined.

(** C3: one pass of the daily loop, for day [i], appends to the series of
    every known user a point [(i + 1, total)]: when the user is missing
    from that day's response the total is the previous one and the stored
    name is kept; when the user is there the total is the previous one
    plus that day's [messages] and the stored name becomes that day's
    name.  Accordingly, in a successful run, point [i + 1] of every
    series is point [i] with the messages of day [i] added, if any. *)
Theorem daily_carry_forward_or_add E days :
  (forall i names gd w names' gd' w' uid data,
      days_loop E days [i] names gd w = (Ok (Some (names', gd')), w') ->
      PyDict.get gd uid = Some data ->
      exists r,
        fetched w w' = [r] /\
        match day_sample r uid with
        | None =>
            PyDict.get gd' uid = Some (data ++ [(i + 1, current_msg data)]) /\
            PyDict.get names' uid = PyDict.get names uid
        | Some s =>
            PyDict.get gd' uid
            = Some (data ++ [(i + 1, current_msg data + messages s)]) /\
            PyDict.get names' uid = Some (user s)
        end) /\
  (forall limit members w ss w' uid data (i : nat) r,
      build_series E days limit members w = (Ok (Some ss), w') ->
      PyDict.get (graph_data ss) uid = Some data ->
      nth_error (fetched w w') (1 + i) = Some r ->
      exists prev,
        nth_error data i = Some prev /\
        nth_error data (S i)
        = Some (Z.of_nat i + 1,
                match day_sample r uid with
                | None => snd prev
                | Some s => snd prev + messages s
                end)).
Proof.
  split.
  - intros i names gd w names' gd' w' uid data Hrun Hg.
    destruct (days_loop_spec _ _ _ _ _ _ _ _ Hrun)
      as [entries [Hl [_ (Hlen & _ & Hstate)]]].
    destruct entries as [|[req r] [|? ?]]; try discriminate.
    exists r. split; [now rewrite (fetched_app _ _ _ Hl)|].
    simpl in Hstate.
    pose proof (accumulate_day_get i (retrieved_of (json r)) names gd uid data Hg)
      as Hpoint.
    assert (Hin : In uid (PyDict.keys gd)).
    { apply PyDictFacts.get_Some_In in Hg. apply in_map_iff.
      now exists (uid, data). }
    pose proof (accumulate_day_name_present i (retrieved_of (json r)) names gd uid)
      as Hpresent.
    pose proof (accumulate_day_name_absent i (retrieved_of (json r)) names gd uid)
      as Habsent.
    destruct (accumulate_day i (retrieved_of (json r)) names gd) as [n1 g1].
    inversion Hstate. subst n1 g1. simpl in *.
    rewrite get_retrieved_of in *.
    destruct (day_sample r uid) as [s|].
    + split; [exact Hpoint | now apply Hpresent].
    + split; [|now apply Habsent]. rewrite Hpoint. repeat f_equal. lia.
  - intros limit members w ss w' uid data i r Hrun Hg Hr.
    destruct (build_series_shape _ _ _ _ _ _ _ Hrun)
      as (r0 & daily & Hf & _ & Hlen & _ & Hshape).
    rewrite Hf in Hr. simpl in Hr.
    assert (Hi : (i < Z.to_nat days)%nat).
    { rewrite <- Hlen. apply nth_error_Some. congruence. }
    destruct (day_points_step (range days) daily uid 0 0 i (Z.of_nat i) r
                (nth_error_range _ _ Hi) Hr) as [prev [Hp Hq]].
    rewrite (Hshape _ _ Hg). exists prev. split; [exact Hp|].
    eapply eq_trans; [exact Hq|]. unfold day_delta.
    destruct (day_sample r uid); repeat f_equal; lia.
Qed.

Lemma daily_carry_forward_or_add_witness :
  (exists r,
      fetched fresh (snd (days_loop two_days 2 [1] [(7, "alice#0001"%string)]
                            [(7, [(0, 0); (1, 2)])] fresh)) = [r] /\
      match day_sample r 7 with
      | None =>
          PyDict.get [(7, [(0, 0); (1, 2); (2, 7)])] 7
          = Some ([(0, 0); (1, 2)] ++ [(1 + 1, current_msg [(0, 0); (1, 2)])]) /\
          PyDict.get [(7, "alice#0001"%string)] 7
          = PyDict.get [(7, "alice#0001"%string)] 7
      | Some s =>
          PyDict.get [(7, [(0, 0); (1, 2); (2, 7)])] 7
          = Some ([(0, 0); (1, 2)]
                    ++ [(1 + 1, current_msg [(0, 0); (1, 2)] + messages s)]) /\
          PyDict.get [(7, "alice#0001"%string)] 7 = Some (user s)
      end) /\
  (exists prev,
      nth_error [(0, 0); (1, 0); (2, 3)] 0 = Some prev /\
      nth_error [(0, 0); (1, 0); (2, 3)] 1
      = Some (Z.of_nat 0 + 1,
              match day_sample day_alice 9 with
              | None => snd prev
              | Some s => snd prev + messages s
              end)).
Proof.
  split.
  - apply (proj1 (daily_carry_forward_or_add two_days 2)
             1 [(7, "alice#0001"%string)] [(7, [(0, 0); (1, 2)])] fresh
             [(7, "alice#0001"%string)] [(7, [(0, 0); (1, 2); (2, 7)])]
             _ 7 [(0, 0); (1, 2)]).
    + reflexivity.
    + reflexivity.
  - apply (proj2 (daily_carry_forward_or_add two_days 2)
             0 None fresh two_days_series (snd two_days_run) 9
             [(0, 0); (1, 0); (2, 3)] 0%nat day_alice).
    + reflexivity.
    + reflexivity.
    + reflexivity.
Defined.

(* ================================================================== *)
(** ** Failures of the fetches *)

(** C4: if the window fetch answers with a status other than 200 or with
    an empty array, [create_graph_messages] returns [False] and that
    request is the only one issued. *)
Theorem window_fetch_failure_stops E days limit members w r0 :
  let out := create_graph_messages E days limit members w in
  nth_error (fetched w (snd out)) 0 = Some r0 ->
  status r0 <> 200 \/ json r0 = [] ->
  fst out = Ok false /\ List.length (fetched w (snd out)) = 1%nat.
Proof.
  intros out Hr0 Hbad.
  destruct out as [res w'] eqn:Hout. unfold out in Hout. simpl in *.
  destruct (create_graph_messages_spec _ _ _ _ _ _ _ Hout)
    as (res1 & w1 & Hc & Hlog & _ & Hres).
  destruct (collect_series_spec _ _ _ _ _ _ _ Hc) as [entries [Hl [_ Hshape]]].
  assert (Hf : fetched w w' = map snd entries).
  { apply fetched_app. congruence. }
  rewrite Hf in *.
  destruct res1 as [[ss|]|e].
  - destruct Hshape as (r & daily & -> & Hst & Hne & _).
    simpl in Hr0. inversion Hr0. subst. tauto.
  - destruct Hshape as (r & [[-> _] | (passed & failing & -> & Hst & Hne & _)]).
    + auto.
    + simpl in Hr0. inversion Hr0. subst. tauto.
  - destruct Hshape as [-> | (r & daily & -> & Hst & Hne & _)].
    + discriminate.
    + simpl in Hr0. inversion Hr0. subst. tauto.
Qed.

Lemma window_fetch_failure_stops_witness :
  fst (create_graph_messages down 3 10 None fresh) = Ok false /\
  List.length (fetched fresh (snd (create_graph_messages down 3 10 None fresh)))
  = 1%nat.
Proof.
  apply (window_fetch_failure_stops down 3 10 None fresh unavailable).
  - reflexivity.
  - left. simpl. lia.
Defined.

(** C5: if the fetch of day [i] answers with a status other than 200,
    [create_graph_messages] returns [False] at once: the requests issued
    are the window fetch and the fetches of the days [0] to [i], that is
    [1 + (i + 1)] requests. *)
Theorem daily_fetch_failure_stops E days limit members w (i : nat) r :
  let out := create_graph_messages E days limit members w in
  nth_error (fetched w (snd out)) (1 + i) = Some r ->
  status r <> 200 ->
  fst out = Ok false /\
  List.length (fetched w (snd out)) = (1 + (i + 1))%nat /\
  (i < Z.to_nat days)%nat.
Proof.
  intros out Hr Hbad.
  destruct out as [res w'] eqn:Hout. unfold out in Hout. simpl fst. simpl snd.
  simpl snd in Hr.
  destruct (create_graph_messages_spec _ _ _ _ _ _ _ Hout)
    as (res1 & w1 & Hc & Hlog & _ & Hres).
  destruct (collect_series_spec _ _ _ _ _ _ _ Hc) as [entries [Hl [_ Hshape]]].
  assert (Hf : fetched w w' = map snd entries).
  { apply fetched_app. congruence. }
  rewrite Hf in *.
  destruct res1 as [[ss|]|e].
  - destruct Hshape as (r0 & daily & -> & _ & _ & _ & Hall & _).
    simpl in Hr. pose proof (ok_status_nth _ _ _ Hall Hr). contradiction.
  - destruct Hshape
      as (r0 & [[-> _] | (passed & failing & -> & _ & _ & Hlen & Hall & Hfail)]).
    + simpl in Hr. destruct i; discriminate.
    + simpl in Hr. rewrite map_app in Hr.
      assert (Hi : i = List.length passed).
      { destruct (Nat.lt_ge_cases i (List.length passed)) as [Hlt|Hge].
        - rewrite nth_error_app1 in Hr by now rewrite length_map.
          pose proof (ok_status_nth _ _ _ Hall Hr). contradiction.
        - assert (Hsome : nth_error (map snd passed ++ map snd [failing]) i
                          <> None) by congruence.
          apply nth_error_Some in Hsome.
          rewrite length_app, length_map in Hsome. simpl in Hsome. lia. }
      subst i. split; [exact Hres|]. split; [|exact Hlen].
      simpl. rewrite length_map, length_app. simpl. lia.
  - destruct Hshape as [-> | (r0 & daily & -> & _ & _ & _ & Hall)].
    + discriminate.
    + simpl in Hr. pose proof (ok_status_nth _ _ _ Hall Hr). contradiction.
Qed.

Lemma daily_fetch_failure_stops_witness :
  fst (create_graph_messages down_on_second_day 5 0 None fresh) = Ok false /\
  List.length
    (fetched fresh (snd (create_graph_messages down_on_second_day 5 0 None fresh)))
  = (1 + (1 + 1))%nat /\
  (1 < Z.to_nat 5)%nat.
Proof.
  apply (daily_fetch_failure_stops down_on_second_day 5 0 None fresh 1
           unavailable).
  - reflexivity.
  - simpl. lia.
Defined.

(* ================================================================== *)
(** ** The defensive check *)

(** C9: the check of line 103 never fires.  Seeded from a non-empty
    window response, the graph data has at least one series and no empty
    series after any number of passes of the daily loop; so whenever the
    fetches produce a series set the check lets it through, and
    [build_series] behaves as [collect_series], which has no such
    check. *)
Theorem defensive_check_never_fires E days limit members w :
  (forall api_data indices w0 names' gd' w0',
      api_data <> [] ->
      days_loop E days indices (seed_names api_data)
                (seed_graph (seed_names api_data)) w0
      = (Ok (Some (names', gd')), w0') ->
      gd' <> [] /\
      (forall uid data, In (uid, data) gd' -> data <> []) /\
      all_series_empty gd' = false) /\
  (forall ss w',
      collect_series E days limit members w = (Ok (Some ss), w') ->
      all_series_empty (graph_data ss) = false) /\
  build_series E days limit members w = collect_series E days limit members w.
Proof.
  assert (Hloop : forall api_data indices w0 names' gd' w0',
             api_data <> [] ->
             days_loop E days indices (seed_names api_data)
                       (seed_graph (seed_names api_data)) w0
             = (Ok (Some (names', gd')), w0') ->
             gd' <> [] /\ Forall (fun kv => snd kv <> []) gd').
  { intros api_data indices w0 names' gd' w0' Hne Hrun.
    destruct (days_loop_spec _ _ _ _ _ _ _ _ Hrun)
      as [entries [_ [_ (_ & _ & Hstate)]]].
    pose proof (seeded_days_not_all_empty api_data indices (map snd entries) Hne)
      as Hinv.
    simpl in Hinv. rewrite <- Hstate in Hinv. exact Hinv. }
  split; [|split].
  - intros api_data indices w0 names' gd' w0' Hne Hrun.
    destruct (Hloop _ _ _ _ _ _ Hne Hrun) as [H1 H2].
    repeat split; auto.
    + intros uid data Hin. rewrite Forall_forall in H2. apply (H2 _ Hin).
    + now apply all_series_empty_false.
  - intros ss w' Hrun.
    pose proof (build_series_collect E days limit members w) as Heq.
    unfold build_series, bind in Heq. rewrite Hrun in Heq.
    destruct (all_series_empty (graph_data ss)); [discriminate | reflexivity].
  - apply build_series_collect.
Qed.

Lemma defensive_check_never_fires_witness :
  all_series_empty [(7, [(0, 0); (1, 5); (2, 7)]); (9, [(0, 0); (1, 3); (2, 3)])]
  = false /\
  all_series_empty (graph_data two_days_series) = false.
Proof.
  split.
  - refine (proj2 (proj2 (proj1 (defensive_check_never_fires two_days 2 0 None fresh)
             (json window_of_two) [0; 1] fresh
             [(7, "alice#0001"%string); (9, "bob#0002"%string)]
             [(7, [(0, 0); (1, 5); (2, 7)]); (9, [(0, 0); (1, 3); (2, 3)])]
             _ _ _))).
    + discriminate.
    + reflexivity.
  - apply (proj1 (proj2 (defensive_check_never_fires two_days 2 0 None fresh))
             two_days_series (snd two_days_run)).
    reflexivity.
Defined.

(* ================================================================== *)
(** ** The server command *)

Section Server.

Variable E : env.
Variable distance : Z.

(** The sampling loop sends nothing and leaves the image file alone. *)
Lemma server_loop_frame ws : forall acc w res w',
  server_loop E distance ws acc w = (res, w') ->
  sent w' = sent w /\ last_graph w' = last_graph w.
Proof.
  induction ws as [|k ws IH]; intros acc w res w' Hrun; simpl in Hrun.
  - inversion Hrun. auto.
  - unfold bind at 1 in Hrun.
    step_days_ago E ((k + 1) * distance) w start w1.
    2:{ inversion Hrun. subst. auto. }
    unfold bind at 1 in Hrun.
    step_days_ago E (k * distance) w1 end_ w2.
    2:{ inversion Hrun. subst. split; congruence. }
    unfold bind at 1, session_get at 1 in Hrun.
    destruct (status _ =? 200); simpl in Hrun.
    2:{ inversion Hrun. subst. simpl. split; congruence. }
    destruct (json _) eqn:Hj.
    { inversion Hrun. subst. simpl. split; congruence. }
    apply IH in Hrun. simpl in Hrun. destruct Hrun. split; congruence.
Qed.

(** A sampling loop that runs to its end, started at sample [k0] when
    the clock had been read [t0 + 2 * k0] times. *)
Lemma server_loop_done t0 len : forall k0 acc w collected w',
  ticks w = (t0 + 2 * k0)%nat ->
  server_loop E distance (map Z.of_nat (seq k0 len)) acc w
  = (Ok (Some collected), w') ->
  exists rs,
    List.length rs = len /\
    log w' = log w ++ map (fun kr => (sample_request E t0 distance (fst kr),
                                       snd kr))
                          (numbered_from k0 rs) /\
    collected = acc ++ map (sample_point E t0 distance) (numbered_from k0 rs).
Proof.
  induction len as [|len IH]; intros k0 acc w collected w' Ht Hrun;
    simpl in Hrun.
  - inversion Hrun. subst. exists []. simpl. now rewrite !app_nil_r.
  - unfold bind at 1 in Hrun.
    step_days_ago E ((Z.of_nat k0 + 1) * distance) w start w1.
    2:{ discriminate. }
    unfold bind at 1 in Hrun.
    step_days_ago E (Z.of_nat k0 * distance) w1 end_ w2.
    2:{ discriminate. }
    unfold bind at 1, session_get at 1 in Hrun.
    set (req := [param "start" (PTime start); param "end" (PTime end_)]) in Hrun.
    set (r := http E (List.length (log w2)) req) in Hrun.
    set (w3 := mkWorld _ _ _ _ _) in Hrun.
    destruct (status r =? 200); simpl in Hrun; [|discriminate].
    destruct (json r) as [|s0 rest] eqn:Hj; [discriminate|].
    rewrite <- Hj in Hrun.
    assert (Hwin : (start, end_) = sample_window E t0 distance k0).
    { unfold sample_window.
      rewrite (Hval start eq_refl), (Hval0 end_ eq_refl), Hticks, Ht.
      repeat f_equal; lia. }
    assert (Ht3 : ticks w3 = (t0 + 2 * S k0)%nat) by (unfold w3; simpl; lia).
    destruct (IH (S k0) _ w3 collected w' Ht3 Hrun) as (rs & Hlen & Hl & Hc).
    exists (r :: rs). split; [simpl; congruence|].
    unfold numbered_from in *. cbn [List.length seq combine map fst snd].
    unfold sample_request at 1, sample_point at 1. cbn [fst snd].
    rewrite <- Hwin. cbn [fst snd]. fold req. split.
    + rewrite Hl. unfold w3. cbn [log]. rewrite <- app_assoc. simpl.
      congruence.
    + rewrite Hc, <- app_assoc. reflexivity.
Qed.

End Server.

(** The sampling loop of [graph server] runs to its end whenever the
    service answers. *)
Lemma server_loop_succeeds E distance span len : forall k0 acc w,
  0 <= distance -> span <= 999999999 -> clock_after E span ->
  Z.of_nat (k0 + len) * distance <= span ->
  always_ok E -> never_empty E ->
  exists collected w',
    server_loop E distance (map Z.of_nat (seq k0 len)) acc w
    = (Ok (Some collected), w').
Proof.
  induction len as [|len IH]; intros k0 acc w Hd Hspan Hclock Hfit Hok Hdata;
    simpl.
  - unfold ret. eauto.
  - unfold bind at 1.
    rewrite (days_ago_ok E ((Z.of_nat k0 + 1) * distance) span) by (auto; nia).
    unfold bind at 1.
    rewrite (days_ago_ok E (Z.of_nat k0 * distance) span) by (auto; nia).
    unfold bind at 1, session_get at 1. rewrite Hok. simpl.
    match goal with
    | |- context [json (http E ?k ?req)] =>
        pose proof (Hdata k req) as Hne;
        destruct (json (http E k req)) as [|s0 rest] eqn:Hj; [contradiction|]
    end.
    apply IH; auto. lia.
Qed.

Lemma interval_totals_succeeds E num_samples distance w :
  0 <= distance -> Z.max 0 num_samples * distance <= 999999999 ->
  clock_after E (Z.max 0 num_samples * distance) ->
  always_ok E -> never_empty E ->
  exists totals w',
    interval_totals E num_samples distance w = (Ok (Some totals), w').
Proof.
  intros Hd Hspan Hclock Hok Hdata. unfold interval_totals, range.
  destruct (server_loop_succeeds E distance (Z.max 0 num_samples * distance)
              (Z.to_nat num_samples) 0%nat [] w) as (collected & w' & Hloop);
    auto.
  { simpl. lia. }
  unfold bind at 1. rewrite Hloop. unfold ret. eauto.
Qed.

(** C6: when [graph server] collects its totals, the windows are fetched
    most recent first (sample [k] covers
    [now - (k + 1) * distance, now - k * distance]) and the sequence handed
    to the renderer is the reversal of the fetch order: one point per
    window, labelled with the end date of the window and carrying the sum
    of the [messages] returned for it.  Against responses summing to 10,
    20 and 30 in fetch order the totals read 30, 20, 10. *)
Theorem interval_totals_reversed E num_samples distance w totals w' :
  interval_totals E num_samples distance w = (Ok (Some totals), w') ->
  List.length (fetched w w') = Z.to_nat num_samples /\
  exchanged w w'
  = map (fun kr => (sample_request E (ticks w) distance (fst kr), snd kr))
        (numbered_from 0 (fetched w w')) /\
  totals
  = rev (map (sample_point E (ticks w) distance)
             (numbered_from 0 (fetched w w'))).
Proof.
  unfold interval_totals, range. intros Hrun. unfold bind at 1 in Hrun.
  destruct (server_loop E distance _ [] w) as [[[collected|]|e] w1] eqn:Hloop;
    try discriminate.
  inversion Hrun. subst. clear Hrun.
  destruct (server_loop_done E distance (ticks w) _ 0%nat [] w collected w'
              ltac:(lia) Hloop) as (rs & Hlen & Hl & Hc).
  assert (Hf : fetched w w' = rs).
  { rewrite (fetched_app _ _ _ Hl), map_map. simpl.
    unfold numbered_from. clear. generalize 0%nat.
    induction rs as [|r rs IH]; intros k; simpl; auto. now rewrite IH. }
  rewrite Hf. split; [congruence|]. split.
  - now apply exchanged_app.
  - rewrite Hc. reflexivity.
Qed.

Lemma interval_totals_reversed_witness :
  List.length (fetched fresh (snd (interval_totals (stub three_windows) 3 7 fresh)))
  = Z.to_nat 3 /\
  exchanged fresh (snd (interval_totals (stub three_windows) 3 7 fresh))
  = map (fun kr => (sample_request (stub three_windows) (ticks fresh) 7 (fst kr),
                    snd kr))
        (numbered_from 0
           (fetched fresh (snd (interval_totals (stub three_windows) 3 7 fresh))))
  /\
  [("737986"%string, 30); ("737993"%string, 20); ("738000"%string, 10)]
  = rev (map (sample_point (stub three_windows) (ticks fresh) 7)
             (numbered_from 0
                (fetched fresh
                   (snd (interval_totals (stub three_windows) 3 7 fresh))))).
Proof.
  apply (interval_totals_reversed (stub three_windows) 3 7 fresh).
  reflexivity.
Defined.

(** C10: for every [num_samples <= 0], [graph server] issues no request
    and still renders and sends the image of an empty series: it neither
    fails nor replies with text. *)
Theorem server_without_samples_sends_empty_graph E num_samples distance w :
  num_samples <= 0 ->
  server E num_samples distance w
  = (Ok ReturnedNone,
     mkWorld (ticks w) (log w) [] (Some (ServerFigure [] []))
             (sent w ++ [SendFile (ServerFigure [] [])])).
Proof.
  intros Hn. unfold server, interval_totals, range.
  replace (Z.to_nat num_samples) with 0%nat by lia.
  reflexivity.
Qed.

Lemma server_without_samples_sends_empty_graph_witness :
  server down (-4) 7 fresh
  = (Ok ReturnedNone,
     mkWorld 0 [] [] (Some (ServerFigure [] []))
             [SendFile (ServerFigure [] [])]).
Proof.
  apply (server_without_samples_sends_empty_graph down (-4) 7 fresh).
  lia.
Defined.

(* ================================================================== *)
(** ** Replies of the commands *)

Section Replies.

Variable E : env.

Lemma render_series_saves days ss w w' :
  render_series E days ss w = (Ok tt, w') ->
  exists lines since, last_graph w' = Some (UsersFigure lines since).
Proof.
  unfold render_series. intros Hrun. unfold bind at 1 in Hrun.
  destruct (plot_lines ss (graph_data ss) w) as [[[]|e] w1];
    [|discriminate].
  unfold bind at 1 in Hrun.
  destruct (days_ago E days w1) as [[label_time|e] w2]; [|discriminate].
  unfold bind, plt_savefig, plt_cla in Hrun. inversion Hrun. simpl. eauto.
Qed.

(** What [create_graph_messages] leaves for the command that called
    it. *)
Lemma create_graph_messages_frame days limit members w res w' :
  create_graph_messages E days limit members w = (res, w') ->
  sent w' = sent w /\
  (res = Ok true ->
   exists lines since, last_graph w' = Some (UsersFigure lines since)).
Proof.
  intros Hrun. split.
  - destruct (create_graph_messages_spec _ _ _ _ _ _ _ Hrun)
      as (res1 & w1 & Hc & _ & Hs & _).
    destruct (collect_series_spec _ _ _ _ _ _ _ Hc)
      as [entries [_ [(_ & _ & Hs1) _]]].
    congruence.
  - intros ->. unfold create_graph_messages in Hrun.
    unfold bind at 1 in Hrun.
    destruct (build_series E days limit members w) as [[[ss|]|e] w1];
      try discriminate.
    unfold bind at 1 in Hrun.
    destruct (render_series E days ss w1) as [[[]|e] w2] eqn:Hr;
      [|discriminate].
    inversion Hrun. subst. eapply render_series_saves. exact Hr.
Qed.

(** [graph top] replies exactly once: with the image when the graph was
    built, with the text otherwise. *)
Lemma top_replies_once n days w :
  let built := create_graph_messages E (clamp days 1 30) (clamp n 1 10) None w in
  let out := top E n days w in
  log (snd out) = log (snd built) /\
  match fst built with
  | Ok true =>
      exists g, fst out = Ok ReturnedNone /\
                sent (snd out) = sent w ++ [SendFile g]
  | Ok false =>
      fst out = Ok ReturnedNone /\
      sent (snd out) = sent w ++ [SendText "Nothing found"]
  | Raise e => fst out = Raise e /\ sent (snd out) = sent w
  end.
Proof.
  intros built out. subst built out.
  destruct (create_graph_messages E (clamp days 1 30) (clamp n 1 10) None w)
    as [res w1] eqn:Hb.
  destruct (create_graph_messages_frame _ _ _ _ _ _ Hb) as [Hs Hfile].
  unfold top, bind. rewrite Hb.
  destruct res as [[|]|e]; simpl.
  - destruct (Hfile eq_refl) as (lines & since & Hg).
    unfold open_last_graph, ctx_send. rewrite Hg. simpl.
    split; auto. eexists. split; [reflexivity|]. now rewrite Hs.
  - rewrite Hs. auto.
  - auto.
Qed.

(** [graph users] replies exactly once when it is given a member. *)
Lemma users_replies_once m members days w :
  let built := create_graph_messages E (clamp days 1 30) 0
                 (Some (firstn 10 (m :: members))) w in
  let out := users E (m :: members) days w in
  match fst built with
  | Ok true =>
      exists g, fst out = Ok ReturnedNone /\
                sent (snd out) = sent w ++ [SendFile g]
  | Ok false =>
      fst out = Ok ReturnedNone /\
      sent (snd out) = sent w ++ [SendText "Nothing found"]
  | Raise e => fst out = Raise e /\ sent (snd out) = sent w
  end.
Proof.
  intros built out. subst built out.
  destruct (create_graph_messages E (clamp days 1 30) 0
              (Some (firstn 10 (m :: members))) w) as [res w1] eqn:Hb.
  destruct (create_graph_messages_frame _ _ _ _ _ _ Hb) as [Hs Hfile].
  unfold users, bind. rewrite Hb.
  destruct res as [[|]|e]; simpl.
  - destruct (Hfile eq_refl) as (lines & since & Hg).
    unfold open_last_graph, ctx_send. rewrite Hg. simpl.
    eexists. split; [reflexivity|]. now rewrite Hs.
  - rewrite Hs. auto.
  - auto.
Qed.

(** [graph server] replies with the image when every window was fetched
    and has data, and does not reply at all otherwise. *)
Lemma server_replies num_samples distance w :
  let out := server E num_samples distance w in
  match fst out with
  | Ok ReturnedNone => exists g, sent (snd out) = sent w ++ [SendFile g]
  | Ok ReturnedFalse => sent (snd out) = sent w
  | Raise _ => sent (snd out) = sent w
  end.
Proof.
  intros out. subst out. unfold server, interval_totals, bind.
  destruct (server_loop E distance (range num_samples) [] w)
    as [[[collected|]|e] w1] eqn:Hloop;
    apply server_loop_frame in Hloop; destruct Hloop as [Hs _]; simpl; auto.
  rewrite Hs. eauto.
Qed.

End Replies.

Lemma clamp_bounds value low high :
  low <= high -> low <= clamp value low high <= high.
Proof.
  intros H. unfold clamp.
  destruct (value <? low) eqn:H1; [lia|].
  destruct (value >? high) eqn:H2; [lia|].
  apply Z.ltb_ge in H1. rewrite Z.gtb_ltb in H2. apply Z.ltb_ge in H2. lia.
Qed.

Lemma clamp_idempotent value low high :
  low <= high -> clamp (clamp value low high) low high = clamp value low high.
Proof.
  intros H. pose proof (clamp_bounds value low high H) as Hb.
  unfold clamp at 1.
  destruct (_ <? low) eqn:H1; [apply Z.ltb_lt in H1; lia|].
  destruct (_ >? high) eqn:H2; [rewrite Z.gtb_ltb in H2; apply Z.ltb_lt in H2; lia|].
  reflexivity.
Qed.

Lemma clock_after_le E a b : a <= b -> clock_after E b -> clock_after E a.
Proof.
  intros Hab Hb t. specialize (Hb t).
  assert (Hus : 0 < us_per_day) by reflexivity. nia.
Qed.

(** [graph top] sends a graph whenever the service answers. *)
Lemma top_sends_graph E n days w :
  clock_after E 30 -> always_ok E -> never_empty E ->
  exists g,
    fst (top E n days w) = Ok ReturnedNone /\
    sent (snd (top E n days w)) = sent w ++ [SendFile g].
Proof.
  intros Hclock Hok Hdata.
  pose proof (clamp_bounds days 1 30 ltac:(lia)) as Hd.
  pose proof (top_replies_once E n days w) as [_ Hreply].
  rewrite (create_graph_messages_succeeds E (clamp days 1 30) (clamp n 1 10)
             None w) in Hreply; auto; try lia.
  apply (clock_after_le E _ 30); [lia | exact Hclock].
Qed.

(** C8: the commands are meant to reply exactly once, with the image on
    success and with "Nothing found" on failure.  [graph top] and
    [graph users] do ([top_replies_once], [users_replies_once]);
    [graph server] does not: when the service answers 503, [graph top]
    replies "Nothing found" while [graph server] returns [False] without
    sending any reply. *)
Theorem server_failure_sends_no_reply :
  fst (server down 13 7 fresh) = Ok ReturnedFalse /\
  sent (snd (server down 13 7 fresh)) = [] /\
  sent (snd (top down 10 7 fresh)) = [SendText "Nothing found"].
Proof. repeat split. Qed.


(* ================================================================== *)
(** * Further properties of the cog *)

(* ================================================================== *)
(** ** Key order of the dictionaries *)

Lemma keys_set_known {V} (d : PyDict.t V) k v :
  In k (PyDict.keys d) -> PyDict.keys (PyDict.set k v d) = PyDict.keys d.
Proof.
  unfold PyDict.keys.
  induction d as [|[k' v'] rest IH]; simpl; [tauto|].
  intros Hin. destruct (k =? k') eqn:Hk; simpl; [reflexivity|].
  apply Z.eqb_neq in Hk. destruct Hin as [Hin|Hin]; [congruence|].
  f_equal. now apply IH.
Qed.

Lemma keys_set_new {V} (d : PyDict.t V) k v :
  ~ In k (PyDict.keys d) ->
  PyDict.keys (PyDict.set k v d) = PyDict.keys d ++ [k].
Proof.
  unfold PyDict.keys.
  induction d as [|[k' v'] rest IH]; simpl; [reflexivity|].
  intros Hin. destruct (k =? k') eqn:Hk; simpl.
  - apply Z.eqb_eq in Hk. subst. tauto.
  - f_equal. apply IH. tauto.
Qed.

Lemma existsb_eqb_In k seen : existsb (Z.eqb k) seen = true <-> In k seen.
Proof.
  rewrite existsb_exists. split.
  - intros [x [Hin Hx]]. apply Z.eqb_eq in Hx. now subst.
  - intros Hin. exists k. split; [exact Hin | apply Z.eqb_refl].
Qed.

Lemma keys_fold_set {V} (items : list (Z * V)) : forall d,
  PyDict.keys (fold_left (fun d kv => PyDict.set (fst kv) (snd kv) d) items d)
  = fold_left (fun seen k => if existsb (Z.eqb k) seen then seen else seen ++ [k])
              (map fst items) (PyDict.keys d).
Proof.
  induction items as [|[k v] rest IH]; intros d; simpl; [reflexivity|].
  rewrite IH. f_equal.
  destruct (existsb (Z.eqb k) (PyDict.keys d)) eqn:Hmem.
  - apply existsb_eqb_In in Hmem. now apply keys_set_known.
  - apply keys_set_new. intros Hin. apply existsb_eqb_In in Hin. congruence.
Qed.

(** The keys of a comprehension, in order. *)
Lemma keys_of_items {V} (items : list (Z * V)) :
  PyDict.keys (PyDict.of_items items) = first_seen (map fst items).
Proof. unfold PyDict.of_items, first_seen. now rewrite keys_fold_set. Qed.

Lemma first_seen_fold ids : forall seen,
  NoDup seen ->
  let out := fold_left (fun seen k => if existsb (Z.eqb k) seen then seen
                                      else seen ++ [k]) ids seen in
  NoDup out /\ forall k, In k out <-> In k seen \/ In k ids.
Proof.
  induction ids as [|a ids IH]; intros seen Hnd; simpl.
  - split; [exact Hnd | tauto].
  - destruct (existsb (Z.eqb a) seen) eqn:Hmem.
    + apply existsb_eqb_In in Hmem.
      destruct (IH seen Hnd) as [H1 H2]. split; [exact H1|].
      intros k. rewrite H2. split; [tauto|].
      intros [H|[H|H]]; subst; auto.
    + assert (Hnot : ~ In a seen).
      { intros Hin. apply existsb_eqb_In in Hin. congruence. }
      assert (Hnd' : NoDup (seen ++ [a])).
      { apply NoDup_app; [exact Hnd | repeat constructor; simpl; tauto |].
        intros x Hx [Hx'|[]]. subst. contradiction. }
      destruct (IH (seen ++ [a]) Hnd') as [H1 H2]. split; [exact H1|].
      intros k. rewrite H2, in_app_iff. simpl. tauto.
Qed.

Lemma first_seen_NoDup ids : NoDup (first_seen ids).
Proof. apply (first_seen_fold ids [] (NoDup_nil Z)). Qed.

Lemma first_seen_In ids k : In k (first_seen ids) <-> In k ids.
Proof.
  destruct (first_seen_fold ids [] (NoDup_nil Z)) as [_ H].
  unfold first_seen. rewrite H. simpl. tauto.
Qed.

Lemma first_seen_NoDup_id ids : NoDup ids -> first_seen ids = ids.
Proof.
  unfold first_seen.
  assert (Hgen : forall seen,
             NoDup (seen ++ ids) ->
             fold_left (fun seen k => if existsb (Z.eqb k) seen then seen
                                      else seen ++ [k]) ids seen
             = seen ++ ids).
  { induction ids as [|a ids IH]; intros seen Hnd; simpl.
    - now rewrite app_nil_r.
    - destruct (existsb (Z.eqb a) seen) eqn:Hmem.
      + apply existsb_eqb_In in Hmem. apply NoDup_remove_2 in Hnd.
        exfalso. apply Hnd. apply in_or_app. now left.
      + rewrite IH; rewrite <- app_assoc; [reflexivity | exact Hnd]. }
  intros Hnd. apply (Hgen [] Hnd).
Qed.

Lemma keys_seed_graph names :
  NoDup (PyDict.keys names) -> PyDict.keys (seed_graph names) = PyDict.keys names.
Proof.
  intros Hnd. unfold seed_graph.
  rewrite keys_of_items, map_map. simpl. rewrite map_id.
  now apply first_seen_NoDup_id.
Qed.

Lemma keys_seed_names api_data :
  PyDict.keys (seed_names api_data) = first_seen (map discord_id api_data).
Proof. unfold seed_names. now rewrite keys_of_items, map_map. Qed.

Lemma keys_seed_totals api_data :
  PyDict.keys (seed_totals api_data) = first_seen (map discord_id api_data).
Proof. unfold seed_totals. now rewrite keys_of_items, map_map. Qed.

(** Overwriting the names of known users adds no key. *)
Lemma accumulate_day_names_keys i retrieved gd : forall names,
  incl (PyDict.keys gd) (PyDict.keys names) ->
  PyDict.keys (fst (accumulate_day i retrieved names gd)) = PyDict.keys names.
Proof.
  induction gd as [|[k d] rest IH]; intros names Hincl; simpl; [reflexivity|].
  assert (Hk : In k (PyDict.keys names)) by (apply Hincl; now left).
  assert (Hrest : incl (PyDict.keys rest) (PyDict.keys names)).
  { intros x Hx. apply Hincl. now right. }
  destruct (PyDict.get retrieved k) as [s|].
  - pose proof (keys_set_known names k (user s) Hk) as Hset.
    specialize (IH (PyDict.set k (user s) names)).
    rewrite Hset in IH. specialize (IH Hrest).
    destruct (accumulate_day i retrieved (PyDict.set k (user s) names) rest).
    exact IH.
  - specialize (IH names Hrest).
    destruct (accumulate_day i retrieved names rest). exact IH.
Qed.

Lemma accumulate_days_names_keys indices : forall resps names gd,
  incl (PyDict.keys gd) (PyDict.keys names) ->
  PyDict.keys (fst (accumulate_days indices resps names gd)) = PyDict.keys names.
Proof.
  induction indices as [|i indices IH]; intros [|r resps] names gd Hincl;
    simpl; auto.
  pose proof (accumulate_day_names_keys i (retrieved_of (json r)) gd names Hincl)
    as Hn.
  pose proof (accumulate_day_keys i (retrieved_of (json r)) names gd) as Hg.
  destruct (accumulate_day i (retrieved_of (json r)) names gd) as [names' gd'].
  simpl in *. rewrite IH; [exact Hn|]. now rewrite Hn, Hg.
Qed.

Lemma last_with_map {A V} (f : A -> Z) (g : A -> V) (l : list A) k :
  last_with k (map (fun x => (f x, g x)) l)
  = option_map g (last_with k (map (fun x => (f x, x)) l)).
Proof.
  induction l as [|a l IH]; simpl; [reflexivity|].
  rewrite IH. destruct (last_with k (map (fun x => (f x, x)) l)); simpl; auto.
  now destruct (k =? f a).
Qed.

(** X1: a series set that was built has one entry per distinct user of
    the window response, under the same keys in the same order (that of
    first occurrence) for the series, the names and the totals. *)
Theorem series_set_has_one_entry_per_user E days limit members w ss w' r0 :
  build_series E days limit members w = (Ok (Some ss), w') ->
  nth_error (fetched w w') 0 = Some r0 ->
  PyDict.keys (user_names ss) = first_seen (map discord_id (json r0)) /\
  PyDict.keys (graph_data ss) = PyDict.keys (user_names ss) /\
  PyDict.keys (num_messages ss) = PyDict.keys (user_names ss) /\
  NoDup (PyDict.keys (user_names ss)) /\
  forall uid, In uid (PyDict.keys (user_names ss))
              <-> In uid (map discord_id (json r0)).
Proof.
  rewrite build_series_collect. intros Hrun Hr0.
  destruct (collect_series_spec _ _ _ _ _ _ _ Hrun) as [entries [Hl [_ Hres]]].
  destruct Hres as (r & daily & -> & _ & _ & _ & _ & Hstate & Htotals).
  rewrite (fetched_app _ _ _ Hl) in Hr0. simpl in Hr0. inversion Hr0. subst r.
  assert (Hnd : NoDup (PyDict.keys (seed_names (json r0)))).
  { rewrite keys_seed_names. apply first_seen_NoDup. }
  assert (Hincl : incl (PyDict.keys (seed_graph (seed_names (json r0))))
                       (PyDict.keys (seed_names (json r0)))).
  { rewrite keys_seed_graph by exact Hnd. apply incl_refl. }
  assert (Hn : PyDict.keys (user_names ss) = PyDict.keys (seed_names (json r0))).
  { replace (user_names ss) with (fst (user_names ss, graph_data ss))
      by reflexivity.
    rewrite Hstate. now apply accumulate_days_names_keys. }
  assert (Hg : PyDict.keys (graph_data ss)
               = PyDict.keys (seed_graph (seed_names (json r0)))).
  { replace (graph_data ss) with (snd (user_names ss, graph_data ss))
      by reflexivity.
    rewrite Hstate. apply accumulate_days_keys. }
  rewrite Hn, Hg, Htotals, keys_seed_graph, keys_seed_totals, keys_seed_names
    by exact Hnd.
  repeat split; auto using first_seen_NoDup; apply first_seen_In.
Qed.

Lemma series_set_has_one_entry_per_user_witness :
  PyDict.keys (user_names two_days_series) = first_seen [7; 9] /\
  PyDict.keys (graph_data two_days_series)
  = PyDict.keys (user_names two_days_series) /\
  PyDict.keys (num_messages two_days_series)
  = PyDict.keys (user_names two_days_series) /\
  NoDup (PyDict.keys (user_names two_days_series)) /\
  forall uid, In uid (PyDict.keys (user_names two_days_series))
              <-> In uid [7; 9].
Proof.
  apply (series_set_has_one_entry_per_user two_days 2 0 None fresh
           two_days_series (snd two_days_run) window_of_two).
  - reflexivity.
  - reflexivity.
Defined.

(* ================================================================== *)
(** ** Totals, names and counts of a series set *)

(** X2: the total shown beside a user is the [messages] value of the
    window response (of its last row for that user), whatever the daily
    responses said. *)
Theorem window_total_is_kept E days limit members w ss w' r0 uid :
  build_series E days limit members w = (Ok (Some ss), w') ->
  nth_error (fetched w w') 0 = Some r0 ->
  PyDict.get (num_messages ss) uid = option_map messages (day_sample r0 uid).
Proof.
  rewrite build_series_collect. intros Hrun Hr0.
  destruct (collect_series_spec _ _ _ _ _ _ _ Hrun) as [entries [Hl [_ Hres]]].
  destruct Hres as (r & daily & -> & _ & _ & _ & _ & _ & Htotals).
  rewrite (fetched_app _ _ _ Hl) in Hr0. simpl in Hr0. inversion Hr0. subst r.
  rewrite Htotals. unfold seed_totals, day_sample.
  rewrite PyDictFacts.get_of_items. apply last_with_map.
Qed.

Lemma window_total_is_kept_witness :
  PyDict.get (num_messages two_days_series) 7
  = option_map messages (day_sample window_of_two 7).
Proof.
  apply (window_total_is_kept two_days 2 0 None fresh two_days_series
           (snd two_days_run) window_of_two 7).
  - reflexivity.
  - reflexivity.
Defined.

Lemma accumulate_days_last_name indices : forall resps names gd uid n,
  List.length indices = List.length resps ->
  In uid (PyDict.keys gd) ->
  PyDict.get names uid = Some n ->
  PyDict.get (fst (accumulate_days indices resps names gd)) uid
  = Some (last_name n resps uid).
Proof.
  induction indices as [|i indices IH]; intros [|r resps] names gd uid n Hlen Hin Hn;
    try discriminate; simpl; auto.
  pose proof (accumulate_day_name_present i (retrieved_of (json r)) names gd uid)
    as Hpresent.
  pose proof (accumulate_day_name_absent i (retrieved_of (json r)) names gd uid)
    as Habsent.
  pose proof (accumulate_day_keys i (retrieved_of (json r)) names gd) as Hkeys.
  destruct (accumulate_day i (retrieved_of (json r)) names gd) as [names' gd'].
  simpl in *. rewrite get_retrieved_of in *.
  apply IH; [lia | now rewrite Hkeys |].
  destruct (day_sample r uid) as [s|].
  - now apply Hpresent.
  - rewrite Habsent; auto.
Qed.

(** X3: at the end of a successful run the name stored for a user is the
    one of the last daily response that carries the user, and the name of
    the window response when no daily response does. *)
Theorem stored_name_is_last_seen E days limit members w ss w' r0 daily uid s0 :
  build_series E days limit members w = (Ok (Some ss), w') ->
  fetched w w' = r0 :: daily ->
  day_sample r0 uid = Some s0 ->
  PyDict.get (user_names ss) uid = Some (last_name (user s0) daily uid).
Proof.
  rewrite build_series_collect. intros Hrun Hf Hs0.
  destruct (collect_series_spec _ _ _ _ _ _ _ Hrun) as [entries [Hl [_ Hres]]].
  destruct Hres as (r & dl & -> & _ & _ & Hlen & _ & Hstate & _).
  rewrite (fetched_app _ _ _ Hl) in Hf. simpl in Hf. inversion Hf. subst r daily.
  replace (user_names ss) with (fst (user_names ss, graph_data ss)) by reflexivity.
  rewrite Hstate. apply accumulate_days_last_name.
  - unfold range. now rewrite !length_map, length_seq.
  - apply day_sample_In in Hs0. destruct Hs0 as [Hin <-].
    pose proof (seed_graph_get _ _ Hin) as Hg.
    apply PyDictFacts.get_Some_In in Hg. apply in_map_iff.
    now exists (discord_id s0, [(0, 0)]).
  - unfold seed_names. rewrite PyDictFacts.get_of_items, last_with_map.
    unfold day_sample in Hs0. now rewrite Hs0.
Qed.

Lemma stored_name_is_last_seen_witness :
  PyDict.get (user_names two_days_series) 9
  = Some (last_name "bob#0002" [day_alice; day_both] 9).
Proof.
  apply (stored_name_is_last_seen two_days 2 0 None fresh two_days_series
           (snd two_days_run) window_of_two [day_alice; day_both] 9
           (mkSample 9 "bob#0002" 3)).
  - reflexivity.
  - reflexivity.
  - reflexivity.
Defined.

Lemma day_points_closed_form len : forall k0 resps uid c k,
  List.length resps = len -> (k < len)%nat ->
  nth_error (day_points (map Z.of_nat (seq k0 len)) resps uid c) k
  = Some (Z.of_nat (k0 + k) + 1,
          c + fold_right Z.add 0
                (map (fun r => day_delta r uid) (firstn (S k) resps))).
Proof.
  induction len as [|len IH]; intros k0 [|r resps] uid c k Hlen Hk;
    try discriminate; try lia.
  destruct k as [|k]; simpl.
  - rewrite Nat.add_0_r. repeat f_equal. destruct resps; simpl; lia.
  - rewrite (IH (S k0) resps uid (c + day_delta r uid) k)
      by (simpl in Hlen; lia).
    f_equal. f_equal; [lia|]. simpl. lia.
Qed.

(** X4: in a series set that was built, point [k] of every series is
    [(k, total)], where [total] sums what the first [k] daily responses
    report for the user. *)
Theorem point_sums_the_first_days E days limit members w ss w' r0 daily uid data
    (k : nat) :
  build_series E days limit members w = (Ok (Some ss), w') ->
  fetched w w' = r0 :: daily ->
  PyDict.get (graph_data ss) uid = Some data ->
  (k <= Z.to_nat days)%nat ->
  nth_error data k = Some (Z.of_nat k, messages_until daily uid k).
Proof.
  intros Hrun Hf Hg Hk.
  destruct (build_series_shape _ _ _ _ _ _ _ Hrun)
    as (r & dl & Hf' & _ & Hlen & _ & Hshape).
  rewrite Hf in Hf'. inversion Hf'. subst r dl.
  rewrite (Hshape _ _ Hg). destruct k as [|k]; [reflexivity|].
  unfold range, messages_until. simpl.
  rewrite (day_points_closed_form (Z.to_nat days) 0 daily uid 0 k Hlen)
    by lia.
  repeat f_equal; lia.
Qed.

Lemma point_sums_the_first_days_witness :
  nth_error [(0, 0); (1, 2); (2, 5)] 2
  = Some (Z.of_nat 2, messages_until [day_alice; day_both] 7 2).
Proof.
  apply (point_sums_the_first_days two_days 2 0 None fresh two_days_series
           (snd two_days_run) window_of_two [day_alice; day_both] 7
           [(0, 0); (1, 2); (2, 5)] 2).
  - reflexivity.
  - reflexivity.
  - reflexivity.
  - simpl. lia.
Defined.

(* ================================================================== *)
(** ** Requests, clock readings and exceptions of the daily loop *)

Lemma days_ago_world E d w :
  snd (days_ago E d w)
  = mkWorld (S (ticks w)) (log w) (axes w) (last_graph w) (sent w).
Proof.
  unfold days_ago, bind, utcnow, lift. simpl.
  destruct (timedelta d) as [delta|e]; simpl; [|reflexivity].
  destruct (datetime_sub (clock E (ticks w)) delta); reflexivity.
Qed.

Lemma days_ago_raises E d w e :
  fst (days_ago E d w) = Raise e -> e = OverflowError.
Proof.
  unfold days_ago, bind, utcnow, lift, timedelta, datetime_sub. simpl.
  destruct (Z.abs d <=? 999999999); simpl.
  - destruct ((0 <=? _) && (_ <? datetime_end)); simpl; intros H;
      [discriminate | now inversion H].
  - intros H. now inversion H.
Qed.

Lemma exchanged_same w w' : log w' = log w -> exchanged w w' = [].
Proof. intros H. apply exchanged_app. now rewrite app_nil_r. Qed.

Section DaysLoopTrace.

Variable E : env.
Variable days : Z.

(** The queries of the daily loop, its clock readings and what it can
    raise. *)
Lemma days_loop_trace indices : forall names gd w res w',
  days_loop E days indices names gd w = (res, w') ->
  incl (PyDict.keys gd) (PyDict.keys names) ->
  (forall j req r,
      nth_error (exchanged w w') j = Some (req, r) ->
      exists i, nth_error indices j = Some i /\
                req = day_request E days (ticks w) j i (PyDict.keys names)) /\
  (forall st, res = Ok (Some st) ->
              ticks w' = (ticks w + 2 * List.length indices)%nat) /\
  (forall e, res = Raise e -> e = OverflowError).
Proof.
  induction indices as [|i indices IH]; intros names gd w res w' Hrun Hincl.
  - inversion Hrun. subst. rewrite (exchanged_same w' w' eq_refl).
    repeat split; intros; try discriminate.
    + destruct j; discriminate.
    + simpl. lia.
  - simpl in Hrun. unfold bind at 1 in Hrun.
    pose proof (days_ago_raises E (days - i) w) as Hraise1.
    step_days_ago E (days - i) w startdate w1.
    2:{ inversion Hrun. subst. rewrite (exchanged_same w w' Hlog).
        repeat split; intros; try discriminate.
        - destruct j; discriminate.
        - inversion H. subst. now apply Hraise1. }
    unfold bind at 1 in Hrun.
    pose proof (days_ago_raises E (days - i - 1) w1) as Hraise2.
    step_days_ago E (days - i - 1) w1 enddate w2.
    2:{ inversion Hrun. subst.
        rewrite (exchanged_same w w') by congruence.
        repeat split; intros; try discriminate.
        - destruct j; discriminate.
        - inversion H. subst. now apply Hraise2. }
    unfold bind at 1, session_get at 1 in Hrun.
    set (req := day_params startdate enddate names) in Hrun.
    set (r := http E (List.length (log w2)) req) in Hrun.
    set (w3 := mkWorld _ _ _ _ _) in Hrun.
    assert (Hw3 : log w3 = log w ++ [(req, r)] /\
                  ticks w3 = (ticks w + 2)%nat).
    { unfold w3. simpl. split; [congruence | lia]. }
    clearbody w3. destruct Hw3 as [Hl3 Ht3].
    assert (Hreq : req = day_request E days (ticks w) 0 i (PyDict.keys names)).
    { unfold req, day_request, day_params.
      rewrite (Hval startdate eq_refl), (Hval0 enddate eq_refl), Hticks.
      replace (ticks w + 2 * 0)%nat with (ticks w) by lia.
      replace (ticks w + 1)%nat with (S (ticks w)) by lia. reflexivity. }
    destruct (status r =? 200) eqn:Hst; simpl in Hrun.
    + pose proof (accumulate_day_names_keys i (retrieved_of (json r)) gd names
                    Hincl) as Hn.
      pose proof (accumulate_day_keys i (retrieved_of (json r)) names gd) as Hg.
      destruct (accumulate_day i (retrieved_of (json r)) names gd)
        as [names' gd'].
      simpl in Hn, Hg.
      assert (Hincl' : incl (PyDict.keys gd') (PyDict.keys names'))
        by now rewrite Hn, Hg.
      destruct (days_loop_spec _ _ _ _ _ _ _ _ Hrun) as [entries [Hl _]].
      destruct (IH names' gd' w3 res w' Hrun Hincl') as (Hq & Ht & He).
      rewrite (exchanged_app w3 w' entries Hl) in Hq.
      rewrite (exchanged_app w w' ((req, r) :: entries))
        by (rewrite Hl, Hl3, <- app_assoc; reflexivity).
      repeat split.
      * intros [|j] req' r' Hj; simpl in Hj.
        -- inversion Hj. subst. exists i. split; [reflexivity | exact Hreq].
        -- destruct (Hq j req' r' Hj) as [i' [Hi' Hr']].
           exists i'. split; [exact Hi'|].
           rewrite Hr', Hn, Ht3. unfold day_request.
           replace (ticks w + 2 + 2 * j)%nat with (ticks w + 2 * S j)%nat by lia.
           reflexivity.
      * intros st Hres. rewrite (Ht st Hres), Ht3. simpl. lia.
      * exact He.
    + inversion Hrun. subst.
      rewrite (exchanged_app w w' [(req, r)] Hl3).
      repeat split; intros; try discriminate.
      destruct j as [|[|j]]; try discriminate.
      simpl in H. inversion H. subst. exists i. split; [reflexivity | exact Hreq].
Qed.

End DaysLoopTrace.

(* ================================================================== *)
(** ** The whole of [create_graph_messages] *)

Section WholeRun.

Variable E : env.
Variables days limit : Z.
Variable members : option (list Member).

(** [collect_series], stage by stage. *)
Lemma collect_series_cases w res w' :
  collect_series E days limit members w = (res, w') ->
  (res = Raise OverflowError /\ log w' = log w)
  \/
  exists w2,
    let req0 := window_request E days limit members w in
    let r0 := http E (List.length (log w)) req0 in
    w2 = mkWorld (S (ticks w)) (log w ++ [(req0, r0)]) (axes w)
                 (last_graph w) (sent w) /\
    (((status r0 <> 200 \/ json r0 = []) /\ res = Ok None /\ w' = w2)
     \/
     (status r0 = 200 /\ json r0 <> [] /\
      exists res2,
        days_loop E days (range days) (seed_names (json r0))
                  (seed_graph (seed_names (json r0))) w2 = (res2, w') /\
        res = match res2 with
              | Ok (Some (names, gd)) =>
                  Ok (Some (mkSeriesSet names (seed_totals (json r0)) gd))
              | Ok None => Ok None
              | Raise e => Raise e
              end)).
Proof.
  intros Hrun. unfold collect_series in Hrun. unfold bind at 1 in Hrun.
  pose proof (days_ago_raises E days w) as Hraise.
  pose proof (days_ago_world E days w) as Hworld.
  step_days_ago E days w start w1.
  2:{ inversion Hrun. subst. left. split; [|exact Hlog].
      f_equal. now apply Hraise. }
  right. simpl in Hworld. subst w1.
  rewrite (Hval start eq_refl) in Hrun.
  fold (window_request E days limit members w) in Hrun.
  unfold bind at 1, session_get at 1 in Hrun. simpl in Hrun.
  eexists. split; [reflexivity|].
  set (req0 := window_request E days limit members w) in *.
  set (r0 := http E (List.length (log w)) req0) in *.
  destruct (status r0 =? 200) eqn:Hst; simpl in Hrun.
  2:{ apply Z.eqb_neq in Hst. inversion Hrun. left. auto. }
  apply Z.eqb_eq in Hst.
  destruct (json r0) as [|s0 rest] eqn:Hj.
  { inversion Hrun. left. auto. }
  rewrite <- Hj in Hrun |- *. right.
  split; [exact Hst|]. split; [rewrite Hj; discriminate|].
  unfold bind at 1 in Hrun.
  match type of Hrun with
  | context [days_loop E days (range days) ?n ?g ?w2] =>
      destruct (days_loop E days (range days) n g w2) as [res2 w3] eqn:Hloop
  end.
  exists res2. destruct res2 as [[[names' gd']|]|e]; inversion Hrun; subst; auto.
Qed.

Lemma seeds_incl api_data :
  incl (PyDict.keys (seed_graph (seed_names api_data)))
       (PyDict.keys (seed_names api_data)).
Proof.
  rewrite keys_seed_graph; [apply incl_refl|].
  rewrite keys_seed_names. apply first_seen_NoDup.
Qed.

Lemma nth_error_range_inv n j i :
  nth_error (range n) j = Some i -> i = Z.of_nat j.
Proof.
  intros H.
  assert (Hj : (j < Z.to_nat n)%nat).
  { assert (Hlen : List.length (range n) = Z.to_nat n)
      by (unfold range; now rewrite length_map, length_seq).
    rewrite <- Hlen. apply nth_error_Some. congruence. }
  rewrite (nth_error_range n j Hj) in H. now inversion H.
Qed.

(** The queries of [collect_series]. *)
Lemma collect_series_requests w res w' :
  collect_series E days limit members w = (res, w') ->
  forall req0 r0,
    nth_error (exchanged w w') 0 = Some (req0, r0) ->
    req0 = window_request E days limit members w /\
    forall k req r,
      nth_error (exchanged w w') (1 + k) = Some (req, r) ->
      req = day_request E days (S (ticks w)) k (Z.of_nat k)
              (first_seen (map discord_id (json r0))).
Proof.
  intros Hrun req0 r0 H0.
  destruct (collect_series_cases w res w' Hrun) as [[_ Hlog] | (w2 & Hw2 & Hcase)].
  { rewrite (exchanged_same w w' Hlog) in H0. discriminate. }
  simpl in Hw2, Hcase.
  assert (Hl2 : log w2 = log w ++ [(window_request E days limit members w,
                  http E (List.length (log w))
                       (window_request E days limit members w))])
    by (subst w2; reflexivity).
  assert (Ht2 : ticks w2 = S (ticks w)) by (subst w2; reflexivity).
  destruct Hcase as [(_ & _ & ->) | (_ & _ & res2 & Hloop & _)].
  - rewrite (exchanged_app w w2 _ Hl2) in *. simpl in H0. inversion H0.
    split; [reflexivity|]. intros k req r Hk. destruct k; discriminate.
  - destruct (days_loop_spec _ _ _ _ _ _ _ _ Hloop) as [entries [Hl _]].
    destruct (days_loop_trace E days _ _ _ _ _ _ Hloop (seeds_incl _))
      as (Hq & _ & _).
    rewrite (exchanged_app w2 w' entries Hl) in Hq.
    rewrite (exchanged_app w w' (_ :: entries))
      in * by (rewrite Hl, Hl2, <- app_assoc; reflexivity).
    simpl in H0. inversion H0. split; [reflexivity|].
    intros k req r Hk. simpl in Hk.
    destruct (Hq k req r Hk) as [i [Hi ->]].
    apply nth_error_range_inv in Hi. subst i.
    now rewrite Ht2, keys_seed_names.
Qed.

End WholeRun.

(** X5: whenever [create_graph_messages] gets to issue them, its first
    request asks for the whole window (limit only when positive, one
    [discord_id] per given member) and the request of day [k] asks for
    [now - (days - k)] to [now - (days - k - 1)], with a clock read
    afresh for each bound, filtered to exactly the distinct users of the
    window response, in their order of first occurrence. *)
Theorem daily_requests_ask_for_known_users
    E days limit members w req0 r0 (k : nat) req r :
  let out := create_graph_messages E days limit members w in
  nth_error (exchanged w (snd out)) 0 = Some (req0, r0) ->
  nth_error (exchanged w (snd out)) (1 + k) = Some (req, r) ->
  req0 = window_params (clock E (ticks w) - days * us_per_day) limit members /\
  req = day_request E days (S (ticks w)) k (Z.of_nat k)
          (first_seen (map discord_id (json r0))).
Proof.
  intros out H0 Hk.
  destruct out as [res w'] eqn:Hout. unfold out in Hout. simpl snd in *.
  destruct (create_graph_messages_spec _ _ _ _ _ _ _ Hout)
    as (res1 & w1 & Hc & Hlog & _ & _).
  assert (Hex : exchanged w w' = exchanged w w1)
    by (unfold exchanged; now rewrite Hlog).
  rewrite Hex in *.
  destruct (collect_series_requests _ _ _ _ _ _ _ Hc req0 r0 H0) as [Hreq0 Hdaily].
  split; [exact Hreq0 | now apply (Hdaily k req r)].
Qed.

Lemma daily_requests_ask_for_known_users_witness :
  [param "start" (PTime (some_noon - 2 * us_per_day))]
  = window_params (clock two_days (ticks fresh) - 2 * us_per_day) 0 None /\
  [param "start" (PTime (some_noon - us_per_day));
   param "end" (PTime some_noon);
   param "discord_id" (PId 7); param "discord_id" (PId 9)]
  = day_request two_days 2 (S (ticks fresh)) 1 (Z.of_nat 1)
      (first_seen (map discord_id (json window_of_two))).
Proof.
  apply (daily_requests_ask_for_known_users two_days 2 0 None fresh
           _ window_of_two 1 _ day_both).
  - reflexivity.
  - reflexivity.
Defined.

(* ================================================================== *)
(** ** What [create_graph_messages] leaves behind *)

Lemma plot_lines_exact ss items : forall w,
  (forall uid, In uid (PyDict.keys items) ->
               PyDict.get (user_names ss) uid <> None /\
               PyDict.get (num_messages ss) uid <> None) ->
  exists lines,
    Forall2 (plotted ss) items lines /\
    plot_lines ss items w
    = (Ok tt, mkWorld (ticks w) (log w) (axes w ++ lines) (last_graph w) (sent w)).
Proof.
  induction items as [|[uid data] rest IH]; intros w Hkeys; simpl.
  - exists []. split; [constructor|]. unfold ret. rewrite app_nil_r.
    now destruct w.
  - destruct (Hkeys uid (or_introl eq_refl)) as [Hn Ht].
    unfold bind at 1, lift at 1, index.
    destruct (PyDict.get (user_names ss) uid) as [name|] eqn:Hname;
      [|congruence].
    unfold bind at 1, lift at 1.
    destruct (PyDict.get (num_messages ss) uid) as [total|] eqn:Htotal;
      [|congruence].
    unfold bind at 1, plt_plot at 1.
    match goal with
    | |- context [plot_lines ss rest ?w1] =>
        destruct (IH w1) as [lines [Hall Hrun]];
          [intros uid' Hin; apply Hkeys; now right|]
    end.
    exists (mkLine (map fst data) (map snd data)
                   (drop_last5 name ++ " " ++ str_of_int total)%string
              :: lines).
    split.
    + constructor; [|exact Hall].
      unfold plotted. simpl.
      split; [reflexivity | split; [reflexivity | exists name, total; auto]].
    + rewrite Hrun. simpl. now rewrite <- app_assoc.
Qed.

(** The world after a rendering that went through. *)
Lemma render_series_world E days ss w w' :
  (forall uid, In uid (PyDict.keys (graph_data ss)) ->
               PyDict.get (user_names ss) uid <> None /\
               PyDict.get (num_messages ss) uid <> None) ->
  render_series E days ss w = (Ok tt, w') ->
  exists lines,
    Forall2 (plotted ss) (graph_data ss) lines /\
    w' = mkWorld (S (ticks w)) (log w) []
           (Some (UsersFigure (axes w ++ lines)
                    (clock E (ticks w) - days * us_per_day)))
           (sent w).
Proof.
  intros Hkeys Hrun.
  destruct (plot_lines_exact ss (graph_data ss) w Hkeys) as [lines [Hall Hplot]].
  exists lines. split; [exact Hall|].
  unfold render_series in Hrun. unfold bind at 1 in Hrun.
  rewrite Hplot in Hrun. unfold bind at 1 in Hrun.
  match type of Hrun with
  | context [days_ago E days ?w2] =>
      pose proof (days_ago_world E days w2) as Hworld;
      pose proof (days_ago_spec E days w2) as (_ & _ & Hval);
      destruct (days_ago E days w2) as [[label_time|e] w3]
  end; [|discriminate].
  simpl in Hworld, Hval. subst w3. rewrite (Hval label_time eq_refl) in Hrun.
  unfold bind, plt_savefig, plt_cla, ret in Hrun. simpl in Hrun.
  now inversion Hrun.
Qed.

Lemma create_graph_messages_true E days limit members w w' :
  create_graph_messages E days limit members w = (Ok true, w') ->
  exists ss w1,
    build_series E days limit members w = (Ok (Some ss), w1) /\
    render_series E days ss w1 = (Ok tt, w').
Proof.
  intros Hrun. unfold create_graph_messages in Hrun. unfold bind at 1 in Hrun.
  destruct (build_series E days limit members w) as [[[ss|]|e] w1];
    try discriminate.
  exists ss, w1. split; [reflexivity|].
  unfold bind at 1 in Hrun.
  destruct (render_series E days ss w1) as [[[]|e] w2]; [|discriminate].
  now inversion Hrun.
Qed.

(** X6: when [create_graph_messages] answers [True], the image file
    holds the lines that were on the axes before followed by one line per
    series, in the order of the graph data; each line has the day indices
    as abscissas, the cumulative counts as ordinates and the stored name
    without its last five characters, a space and the window total as
    label.  The axes are left empty, nothing is sent, and the caption
    instant is a fresh clock reading minus [days]. *)
Theorem successful_run_saves_one_line_per_series
    E days limit members w ss w1 w' :
  build_series E days limit members w = (Ok (Some ss), w1) ->
  create_graph_messages E days limit members w = (Ok true, w') ->
  exists lines,
    Forall2 (plotted ss) (graph_data ss) lines /\
    w' = mkWorld (S (ticks w1)) (log w1) []
           (Some (UsersFigure (axes w ++ lines)
                    (clock E (ticks w1) - days * us_per_day)))
           (sent w).
Proof.
  intros Hb Hrun.
  assert (Hframe : only_fetched w w1).
  { rewrite build_series_collect in Hb.
    destruct (collect_series_spec _ _ _ _ _ _ _ Hb) as [entries [_ [Hf _]]].
    exact Hf. }
  destruct Hframe as (Ha & _ & Hs).
  destruct (create_graph_messages_true _ _ _ _ _ _ Hrun)
    as (ss' & w1' & Hb' & Hrender).
  rewrite Hb in Hb'. inversion Hb'. subst ss' w1'.
  destruct (render_series_world E days ss w1 w') as [lines [Hall Hw']]; auto.
  { intros uid. now apply (build_series_keys E days limit members w ss w1). }
  exists lines. split; [exact Hall|]. now rewrite <- Ha, <- Hs.
Qed.

Lemma successful_run_saves_one_line_per_series_witness :
  exists lines,
    Forall2 (plotted two_days_series) (graph_data two_days_series) lines /\
    snd (create_graph_messages two_days 2 0 None fresh)
    = mkWorld (S (ticks (snd two_days_run))) (log (snd two_days_run)) []
           (Some (UsersFigure (axes fresh ++ lines)
                    (clock two_days (ticks (snd two_days_run))
                     - 2 * us_per_day)))
           (sent fresh).
Proof.
  apply (successful_run_saves_one_line_per_series two_days 2 0 None fresh
           two_days_series (snd two_days_run)
           (snd (create_graph_messages two_days 2 0 None fresh))).
  - reflexivity.
  - vm_compute. reflexivity.
Defined.

(** X7: when [create_graph_messages] answers [False], it has touched
    neither the axes nor the image file and has sent nothing: a failed
    build leaves no partial graph, and whatever image an earlier command
    wrote is still there. *)
Theorem failed_run_leaves_no_graph E days limit members w w' :
  create_graph_messages E days limit members w = (Ok false, w') ->
  axes w' = axes w /\ last_graph w' = last_graph w /\ sent w' = sent w.
Proof.
  intros Hrun. unfold create_graph_messages in Hrun.
  unfold bind at 1 in Hrun. rewrite build_series_collect in Hrun.
  destruct (collect_series E days limit members w) as [[[ss|]|e] w1] eqn:Hc.
  - unfold bind at 1 in Hrun.
    destruct (render_series E days ss w1) as [[[]|e] w2]; discriminate.
  - inversion Hrun. subst.
    destruct (collect_series_spec _ _ _ _ _ _ _ Hc) as [entries [_ [Hf _]]].
    exact Hf.
  - discriminate.
Qed.

Lemma failed_run_leaves_no_graph_witness :
  axes (snd (create_graph_messages down_on_second_day 5 0 None fresh))
  = axes fresh /\
  last_graph (snd (create_graph_messages down_on_second_day 5 0 None fresh))
  = last_graph fresh /\
  sent (snd (create_graph_messages down_on_second_day 5 0 None fresh))
  = sent fresh.
Proof.
  apply (failed_run_leaves_no_graph down_on_second_day 5 0 None fresh).
  reflexivity.
Defined.

(** X8: a run of [create_graph_messages] that answers [True] has issued
    exactly [1 + days] requests, all answered with status 200, and has
    read the clock [2 * days + 2] times. *)
Theorem successful_run_costs_one_request_per_day_plus_one
    E days limit members w w' :
  create_graph_messages E days limit members w = (Ok true, w') ->
  List.length (fetched w w') = (1 + Z.to_nat days)%nat /\
  Forall (fun r => status r = 200) (fetched w w') /\
  ticks w' = (ticks w + 2 * Z.to_nat days + 2)%nat.
Proof.
  intros Hrun.
  destruct (create_graph_messages_true _ _ _ _ _ _ Hrun)
    as (ss & w1 & Hb & Hrender).
  destruct (render_series_world E days ss w1 w') as [lines [_ Hw']]; auto.
  { intros uid. now apply (build_series_keys E days limit members w ss w1). }
  assert (Hl : log w' = log w1) by (subst w'; reflexivity).
  assert (Ht : ticks w' = S (ticks w1)) by (subst w'; reflexivity).
  clear Hw'.
  rewrite build_series_collect in Hb.
  destruct (collect_series_spec _ _ _ _ _ _ _ Hb) as [entries [Hlog [_ Hres]]].
  destruct Hres as (r0 & daily & -> & Hst & _ & Hlen & Hall & _).
  assert (Hf : fetched w w' = map snd ((window_request E days limit members w, r0)
                                         :: daily)).
  { apply fetched_app. congruence. }
  rewrite Hf. simpl. rewrite length_map, Hlen. split; [reflexivity|]. split.
  - constructor; [exact Hst|]. apply Forall_forall. intros r Hin.
    apply in_map_iff in Hin. destruct Hin as [e [<- Hin]].
    rewrite Forall_forall in Hall. now apply Hall.
  - destruct (collect_series_cases _ _ _ _ _ _ _ Hb)
      as [[Hx _] | (w2 & Hw2 & [(_ & Hx & _) | (_ & _ & res2 & Hloop & Hres)])];
      try discriminate.
    simpl in Hw2.
    destruct res2 as [[[n g]|]|e]; try discriminate.
    destruct (days_loop_trace E days _ _ _ _ _ _ Hloop (seeds_incl _))
      as (_ & Hticks & _).
    rewrite Ht, (Hticks _ eq_refl). subst w2. simpl.
    unfold range. rewrite length_map, length_seq. lia.
Qed.

Lemma successful_run_costs_one_request_per_day_plus_one_witness :
  List.length (fetched fresh (snd (create_graph_messages two_days 2 0 None fresh)))
  = (1 + Z.to_nat 2)%nat /\
  Forall (fun r => status r = 200)
         (fetched fresh (snd (create_graph_messages two_days 2 0 None fresh))) /\
  ticks (snd (create_graph_messages two_days 2 0 None fresh))
  = (ticks fresh + 2 * Z.to_nat 2 + 2)%nat.
Proof.
  apply (successful_run_costs_one_request_per_day_plus_one two_days 2 0 None
           fresh (snd (create_graph_messages two_days 2 0 None fresh))).
  vm_compute. reflexivity.
Defined.

(* ================================================================== *)
(** ** Runs that return *)

Section Returns.

Variable E : env.

(** The daily loop raises nothing when the clock is at least [days] days
    after [datetime.min]. *)
Lemma days_loop_returns days indices : forall names gd w,
  clock_after E days -> days <= 999999999 ->
  Forall (fun i => 0 <= i < days) indices ->
  exists r w', days_loop E days indices names gd w = (Ok r, w').
Proof.
  induction indices as [|i indices IH]; intros names gd w Hclock Hdays Hall.
  - simpl. unfold ret. eauto.
  - inversion Hall as [|? ? Hi Hrest]. subst. simpl.
    unfold bind at 1.
    rewrite (days_ago_ok E (days - i) days) by (auto; lia).
    unfold bind at 1.
    rewrite (days_ago_ok E (days - i - 1) days) by (auto; lia).
    unfold bind at 1, session_get at 1.
    destruct (status _ =? 200); simpl.
    + destruct (accumulate_day i _ names gd) as [names' gd'].
      apply IH; auto.
    + unfold ret. eauto.
Qed.

Lemma create_graph_messages_returns days limit members w :
  0 <= days <= 999999999 -> clock_after E days ->
  exists b w', create_graph_messages E days limit members w = (Ok b, w').
Proof.
  intros Hdays Hclock.
  destruct (create_graph_messages E days limit members w) as [[b|e] w'] eqn:Hrun;
    [eauto|].
  exfalso. unfold create_graph_messages in Hrun. unfold bind at 1 in Hrun.
  rewrite build_series_collect in Hrun.
  destruct (collect_series E days limit members w) as [[[ss|]|e1] w1] eqn:Hc.
  - unfold bind at 1 in Hrun.
    rewrite <- build_series_collect in Hc.
    destruct (plot_lines_exact ss (graph_data ss) w1) as [lines [_ Hplot]].
    { intros uid. now apply (build_series_keys E days limit members w ss w1). }
    unfold render_series in Hrun. unfold bind at 1 in Hrun.
    rewrite Hplot in Hrun. unfold bind at 1 in Hrun.
    rewrite (days_ago_ok E days days) in Hrun by (auto; lia).
    unfold bind, plt_savefig, plt_cla, ret in Hrun. discriminate.
  - discriminate.
  - destruct (collect_series_cases _ _ _ _ _ _ _ Hc)
      as [[_ Hlog] | (w2 & _ & [(_ & Hx & _) | (_ & _ & res2 & Hloop & Hres)])];
      try discriminate.
    + unfold collect_series in Hc. unfold bind at 1 in Hc.
      rewrite (days_ago_ok E days days) in Hc by (auto; lia).
      unfold bind at 1, session_get at 1 in Hc.
      destruct (status _ =? 200); simpl in Hc; [|discriminate].
      destruct (json _); [discriminate|].
      unfold bind at 1 in Hc.
      match type of Hc with
      | context [days_loop E days (range days) ?n ?g ?w2] =>
          destruct (days_loop_returns days (range days) n g w2)
            as (r & w3 & Hl); auto; try lia;
            [apply Forall_forall; exact (range_bounds days) | rewrite Hl in Hc]
      end.
      destruct r as [[? ?]|]; discriminate.
    + destruct (days_loop_returns days (range days)
                  (seed_names (json (http E (List.length (log w))
                                       (window_request E days limit members w))))
                  (seed_graph (seed_names (json (http E (List.length (log w))
                                       (window_request E days limit members w)))))
                  w2) as (r & w3 & Hl); auto; try lia.
      { apply Forall_forall. exact (range_bounds days). }
      simpl in Hloop. rewrite Hl in Hloop. inversion Hloop. subst res2.
      destruct r as [[? ?]|]; discriminate.
Qed.

End Returns.

(* ================================================================== *)
(** ** [graph top] and [graph users], from request to reply *)

Section TopAndUsers.

Variable E : env.

Lemma top_as_reply n days w :
  top E n days w
  = bind (create_graph_messages E (clamp days 1 30) (clamp n 1 10) None)
         send_graph_or_nothing w.
Proof. reflexivity. Qed.

Lemma users_as_reply m ms days w :
  users E (m :: ms) days w
  = bind (create_graph_messages E (clamp days 1 30) 0
            (Some (firstn 10 (m :: ms))))
         send_graph_or_nothing w.
Proof. reflexivity. Qed.

Lemma reply_log (m : M bool) w :
  log (snd (bind m send_graph_or_nothing w)) = log (snd (m w)).
Proof.
  unfold bind. destruct (m w) as [[[|]|e] w1]; simpl; auto.
  unfold bind, open_last_graph. destruct (last_graph w1); reflexivity.
Qed.

Lemma create_graph_messages_true_world days limit members w w' :
  create_graph_messages E days limit members w = (Ok true, w') ->
  exists lines since,
    axes w' = [] /\ sent w' = sent w /\
    last_graph w' = Some (UsersFigure (axes w ++ lines) since).
Proof.
  intros Hrun.
  destruct (create_graph_messages_true _ _ _ _ _ _ Hrun)
    as (ss & w1 & Hb & Hrender).
  destruct (render_series_world E days ss w1 w') as [lines [_ Hw']]; auto.
  { intros uid. now apply (build_series_keys E days limit members w ss w1). }
  rewrite build_series_collect in Hb.
  destruct (collect_series_spec _ _ _ _ _ _ _ Hb) as [_ [_ [(Ha & _ & Hs) _]]].
  exists lines, (clock E (ticks w1) - days * us_per_day).
  subst w'. simpl. now rewrite Ha, Hs.
Qed.

Lemma create_graph_messages_false_world days limit members w w' :
  create_graph_messages E days limit members w = (Ok false, w') ->
  axes w' = axes w /\ last_graph w' = last_graph w /\ sent w' = sent w.
Proof.
  intros Hrun. unfold create_graph_messages in Hrun.
  unfold bind at 1 in Hrun. rewrite build_series_collect in Hrun.
  destruct (collect_series E days limit members w) as [[[ss|]|e] w1] eqn:Hc.
  - unfold bind at 1 in Hrun.
    destruct (render_series E days ss w1) as [[[]|e] w2]; discriminate.
  - inversion Hrun. subst.
    destruct (collect_series_spec _ _ _ _ _ _ _ Hc) as [entries [_ [Hf _]]].
    exact Hf.
  - discriminate.
Qed.

(** With a sane clock the window request of [create_graph_messages] is
    issued, and at most one request per day follows it. *)
Lemma create_graph_messages_first_request days limit members w :
  0 <= days <= 999999999 -> clock_after E days ->
  exists r later,
    exchanged w (snd (create_graph_messages E days limit members w))
    = (window_request E days limit members w, r) :: later /\
    (List.length later <= Z.to_nat days)%nat.
Proof.
  intros Hdays Hclock.
  destruct (create_graph_messages_returns E days limit members w Hdays Hclock)
    as (b & w' & Hrun).
  rewrite Hrun. simpl.
  destruct (create_graph_messages_spec _ _ _ _ _ _ _ Hrun)
    as (res1 & w1 & Hc & Hlog & _ & Hres).
  destruct (collect_series_spec _ _ _ _ _ _ _ Hc) as [entries [Hl [_ Hshape]]].
  rewrite (exchanged_app w w' entries) by congruence.
  destruct res1 as [[ss|]|e]; [| |discriminate].
  - destruct Hshape as (r0 & daily & -> & _ & _ & Hlen & _).
    exists r0, daily. split; [reflexivity | lia].
  - destruct Hshape
      as (r0 & [[-> _] | (passed & failing & -> & _ & _ & Hlen & _)]).
    + exists r0, []. split; [reflexivity | simpl; lia].
    + exists r0, (passed ++ [failing]). split; [reflexivity|].
      rewrite length_app. simpl. lia.
Qed.

Lemma reply_exchanged (m : M bool) w :
  exchanged w (snd (bind m send_graph_or_nothing w)) = exchanged w (snd (m w)).
Proof. unfold exchanged. now rewrite reply_log. Qed.

(** The reply block, by outcome of the build. *)
Lemma build_and_reply days limit members w :
  let built := create_graph_messages E days limit members w in
  let out := bind (create_graph_messages E days limit members)
                  send_graph_or_nothing w in
  match fst built with
  | Ok true =>
      exists lines since,
        out = (Ok ReturnedNone,
               mkWorld (ticks (snd built)) (log (snd built)) []
                 (Some (UsersFigure (axes w ++ lines) since))
                 (sent w ++ [SendFile (UsersFigure (axes w ++ lines) since)]))
  | Ok false =>
      out = (Ok ReturnedNone,
             mkWorld (ticks (snd built)) (log (snd built)) (axes w)
               (last_graph w) (sent w ++ [SendText "Nothing found"]))
  | Raise e => out = (Raise e, snd built)
  end.
Proof.
  intros built out. subst built out.
  destruct (create_graph_messages E days limit members w) as [[[|]|e] w1] eqn:Hb;
    simpl.
  - destruct (create_graph_messages_true_world _ _ _ _ _ Hb)
      as (lines & since & Ha & Hs & Hg).
    exists lines, since.
    unfold send_graph_or_nothing, bind, open_last_graph, ctx_send, ret.
    rewrite Hb, Hg. simpl. rewrite Ha, Hg, Hs. reflexivity.
  - destruct (create_graph_messages_false_world _ _ _ _ _ Hb) as (Ha & Hg & Hs).
    unfold send_graph_or_nothing, bind, ctx_send, ret. rewrite Hb. simpl.
    rewrite Ha, Hg, Hs. reflexivity.
  - unfold bind. rewrite Hb. reflexivity.
Qed.

End TopAndUsers.

(* ================================================================== *)
(** ** Clamping in [graph top] *)

(** C7: [graph top] clamps its arguments before anything is requested.
    Whatever [n] and [days] are, the command is the build of the graph
    for [days] clamped into 1..30 with the limit [n] clamped into 1..10,
    followed by the reply: it behaves as if called with the clamped
    arguments and issues the requests of that build and no other.  The
    first request, which is issued whenever the clock is at least thirty
    days after [datetime.min], asks for the window of the clamped number
    of days with the clamped limit, and at most one request per clamped
    day follows.  In particular [top 15 0] is [top 10 1]. *)
Theorem top_clamps_arguments E n days w :
  (1 <= clamp n 1 10 <= 10 /\ 1 <= clamp days 1 30 <= 30) /\
  top E n days w = top E (clamp n 1 10) (clamp days 1 30) w /\
  match exchanged w (snd (top E n days w)) with
  | [] => True
  | (req, _) :: later =>
      req = [param "start"
               (PTime (clock E (ticks w) - clamp days 1 30 * us_per_day));
             param "limit" (PInt (clamp n 1 10))] /\
      (List.length later <= Z.to_nat (clamp days 1 30))%nat
  end /\
  (clamp 15 1 10 = 10 /\ clamp 0 1 30 = 1 /\ top E 15 0 w = top E 10 1 w) /\
  (top E n days w
   = bind (create_graph_messages E (clamp days 1 30) (clamp n 1 10) None)
          send_graph_or_nothing w) /\
  (exchanged w (snd (top E n days w))
   = exchanged w (snd (create_graph_messages E (clamp days 1 30)
                         (clamp n 1 10) None w))) /\
  (clock_after E 30 ->
   exists r later,
     exchanged w (snd (top E n days w))
     = ([param "start"
           (PTime (clock E (ticks w) - clamp days 1 30 * us_per_day));
         param "limit" (PInt (clamp n 1 10))], r) :: later /\
     (List.length later <= Z.to_nat (clamp days 1 30))%nat).
Proof.
  pose proof (clamp_bounds n 1 10 ltac:(lia)) as Hn.
  pose proof (clamp_bounds days 1 30 ltac:(lia)) as Hd.
  assert (Hreq : window_request E (clamp days 1 30) (clamp n 1 10) None w
                 = [param "start"
                      (PTime (clock E (ticks w) - clamp days 1 30 * us_per_day));
                    param "limit" (PInt (clamp n 1 10))]).
  { unfold window_request, window_params.
    destruct (clamp n 1 10 >? 0) eqn:Hpos; [reflexivity|].
    rewrite Z.gtb_ltb in Hpos. apply Z.ltb_ge in Hpos. lia. }
  assert (Hex : exchanged w (snd (top E n days w))
                = exchanged w (snd (create_graph_messages E (clamp days 1 30)
                                      (clamp n 1 10) None w))).
  { rewrite top_as_reply. apply reply_exchanged. }
  split; [auto|]. split; [|split; [|split; [|split; [|split]]]].
  - unfold top. now rewrite !clamp_idempotent by lia.
  - rewrite Hex.
    destruct (create_graph_messages E (clamp days 1 30) (clamp n 1 10) None w)
      as [res w1] eqn:Hb.
    destruct (create_graph_messages_spec _ _ _ _ _ _ _ Hb)
      as (res1 & w2 & Hc & Hlog1 & _ & _).
    destruct (collect_series_spec _ _ _ _ _ _ _ Hc) as [entries [Hl [_ Hshape]]].
    rewrite (exchanged_app w _ entries) by (simpl in *; congruence).
    rewrite <- Hreq.
    destruct res1 as [[ss|]|e].
    + destruct Hshape as (r0 & daily & -> & _ & _ & Hlen & _).
      split; [reflexivity | lia].
    + destruct Hshape
        as (r0 & [[-> _] | (passed & failing & -> & _ & _ & Hlen & _)]).
      * split; [reflexivity | simpl; lia].
      * split; [reflexivity|]. rewrite length_app. simpl. lia.
    + destruct Hshape as [-> | (r0 & daily & -> & _ & _ & Hlen & _)]; auto.
      split; [reflexivity | lia].
  - repeat split.
  - apply top_as_reply.
  - exact Hex.
  - intros Hclock. rewrite Hex, <- Hreq.
    apply create_graph_messages_first_request; [lia|].
    apply (clock_after_le E _ 30); [lia | exact Hclock].
Qed.

Lemma top_clamps_arguments_witness :
  exists r later,
    exchanged fresh (snd (top two_days 15 0 fresh))
    = ([param "start"
          (PTime (clock two_days (ticks fresh) - clamp 0 1 30 * us_per_day));
        param "limit" (PInt (clamp 15 1 10))], r) :: later /\
    (List.length later <= Z.to_nat (clamp 0 1 30))%nat.
Proof.
  apply (proj2 (proj2 (proj2 (proj2 (proj2 (proj2
           (top_clamps_arguments two_days 15 0 fresh))))))).
  intros t. cbn. unfold some_noon, datetime_end, us_per_day. lia.
Defined.

(* ================================================================== *)
(** ** [graph top] and [graph users], by outcome of the build *)

(** X9: [graph top] replies exactly once whenever the build of the graph
    returns.  When the build answers [True] the command sends the image
    that the build has just saved, which is the content of the image
    file, and returns [None]; when it answers [False] the command sends
    "Nothing found" and leaves the image file and the axes as they were;
    when the build raises, so does the command, without sending. *)
Theorem top_replies_once_per_outcome E n days w :
  let built := create_graph_messages E (clamp days 1 30) (clamp n 1 10) None w in
  match fst built with
  | Ok true =>
      exists lines since,
        top E n days w
        = (Ok ReturnedNone,
           mkWorld (ticks (snd built)) (log (snd built)) []
             (Some (UsersFigure (axes w ++ lines) since))
             (sent w ++ [SendFile (UsersFigure (axes w ++ lines) since)]))
  | Ok false =>
      top E n days w
      = (Ok ReturnedNone,
         mkWorld (ticks (snd built)) (log (snd built)) (axes w)
           (last_graph w) (sent w ++ [SendText "Nothing found"]))
  | Raise e => top E n days w = (Raise e, snd built)
  end.
Proof.
  intros built. subst built. rewrite top_as_reply.
  apply (build_and_reply E (clamp days 1 30) (clamp n 1 10) None w).
Qed.

(** X10: [graph users] without a member raises [BadArgument] before
    anything is requested or sent.  With members it is the build of the
    graph for the clamped number of days, without limit, for the first
    ten members given, followed by the reply, and it issues the requests
    of that build and no other.  Its first request, which is issued
    whenever the clock is at least thirty days after [datetime.min],
    asks for the window of the clamped number of days, carries no limit
    and has one [discord_id] per member for the first ten members only,
    in their order; at most one request per clamped day follows. *)
Theorem users_asks_for_the_first_ten_members E members m ms days w :
  users E [] days w
  = (Raise (BadArgument "Please specify at least 1 member"), w) /\
  match exchanged w (snd (users E members days w)) with
  | [] => True
  | (req, _) :: later =>
      req = param "start"
              (PTime (clock E (ticks w) - clamp days 1 30 * us_per_day))
            :: map (fun u => param "discord_id" (PId (id u)))
                   (firstn 10 members) /\
      (List.length req <= 11)%nat /\
      (List.length later <= Z.to_nat (clamp days 1 30))%nat
  end /\
  (users E (m :: ms) days w
   = bind (create_graph_messages E (clamp days 1 30) 0
             (Some (firstn 10 (m :: ms))))
          send_graph_or_nothing w) /\
  (exchanged w (snd (users E (m :: ms) days w))
   = exchanged w (snd (create_graph_messages E (clamp days 1 30) 0
                         (Some (firstn 10 (m :: ms))) w))) /\
  (clock_after E 30 ->
   exists r later,
     exchanged w (snd (users E (m :: ms) days w))
     = (param "start"
          (PTime (clock E (ticks w) - clamp days 1 30 * us_per_day))
        :: map (fun u => param "discord_id" (PId (id u)))
               (firstn 10 (m :: ms)), r) :: later /\
     (List.length later <= Z.to_nat (clamp days 1 30))%nat).
Proof.
  pose proof (clamp_bounds days 1 30 ltac:(lia)) as Hd.
  assert (Hreq : forall l,
             window_request E (clamp days 1 30) 0 (Some (firstn 10 l)) w
             = param "start"
                 (PTime (clock E (ticks w) - clamp days 1 30 * us_per_day))
               :: map (fun u => param "discord_id" (PId (id u))) (firstn 10 l))
    by reflexivity.
  assert (Hex : forall a l,
             exchanged w (snd (users E (a :: l) days w))
             = exchanged w (snd (create_graph_messages E (clamp days 1 30) 0
                                   (Some (firstn 10 (a :: l))) w))).
  { intros a l. rewrite users_as_reply. apply reply_exchanged. }
  split; [reflexivity|]. split; [|split; [|split]].
  - destruct members as [|a l].
    { simpl. unfold raise. simpl. now rewrite (exchanged_same w w eq_refl). }
    rewrite Hex.
    destruct (create_graph_messages E (clamp days 1 30) 0
                (Some (firstn 10 (a :: l))) w) as [res w1] eqn:Hb.
    destruct (create_graph_messages_spec _ _ _ _ _ _ _ Hb)
      as (res1 & w2 & Hc & Hlog1 & _ & _).
    destruct (collect_series_spec _ _ _ _ _ _ _ Hc) as [entries [Hl [_ Hshape]]].
    rewrite (exchanged_app w _ entries) by (simpl in *; congruence).
    assert (Hlen : (List.length (window_request E (clamp days 1 30) 0
                                   (Some (firstn 10 (a :: l))) w) <= 11)%nat).
    { rewrite Hreq. cbn [List.length]. rewrite length_map.
      pose proof (length_firstn 10 (a :: l)). lia. }
    rewrite <- Hreq.
    destruct res1 as [[ss|]|e].
    + destruct Hshape as (r0 & daily & -> & _ & _ & Hdl & _).
      repeat split; auto; lia.
    + destruct Hshape
        as (r0 & [[-> _] | (passed & failing & -> & _ & _ & Hdl & _)]).
      * repeat split; auto; simpl; lia.
      * repeat split; auto. rewrite length_app. simpl. lia.
    + destruct Hshape as [-> | (r0 & daily & -> & _ & _ & Hdl & _)]; auto.
      repeat split; auto; lia.
  - apply users_as_reply.
  - apply Hex.
  - intros Hclock. rewrite Hex, <- Hreq.
    apply create_graph_messages_first_request; [lia|].
    apply (clock_after_le E _ 30); [lia | exact Hclock].
Qed.

Lemma users_asks_for_the_first_ten_members_witness :
  exists r later,
    exchanged fresh (snd (users two_days twelve_members 45 fresh))
    = (param "start"
         (PTime (clock two_days (ticks fresh) - clamp 45 1 30 * us_per_day))
       :: map (fun u => param "discord_id" (PId (id u)))
              (firstn 10 twelve_members), r) :: later /\
    (List.length later <= Z.to_nat (clamp 45 1 30))%nat.
Proof.
  apply (proj2 (proj2 (proj2 (proj2
           (users_asks_for_the_first_ten_members two_days [] (mkMember 1)
              (map (fun k => mkMember (Z.of_nat k)) (seq 2 11)) 45 fresh))))).
  intros t. cbn. unfold some_noon, datetime_end, us_per_day. lia.
Defined.

(** X11: [graph users] called with at least one member replies exactly
    once whenever the build of the graph returns: with the image that the
    build has just saved when it answers [True], with "Nothing found",
    leaving the image file and the axes as they were, when it answers
    [False]; when the build raises, so does the command, without
    sending. *)
Theorem users_replies_once_per_outcome E m ms days w :
  let built := create_graph_messages E (clamp days 1 30) 0
                 (Some (firstn 10 (m :: ms))) w in
  match fst built with
  | Ok true =>
      exists lines since,
        users E (m :: ms) days w
        = (Ok ReturnedNone,
           mkWorld (ticks (snd built)) (log (snd built)) []
             (Some (UsersFigure (axes w ++ lines) since))
             (sent w ++ [SendFile (UsersFigure (axes w ++ lines) since)]))
  | Ok false =>
      users E (m :: ms) days w
      = (Ok ReturnedNone,
         mkWorld (ticks (snd built)) (log (snd built)) (axes w)
           (last_graph w) (sent w ++ [SendText "Nothing found"]))
  | Raise e => users E (m :: ms) days w = (Raise e, snd built)
  end.
Proof.
  intros built. subst built. rewrite users_as_reply.
  apply (build_and_reply E (clamp days 1 30) 0 (Some (firstn 10 (m :: ms))) w).
Qed.

(* ================================================================== *)
(** ** [graph server], window by window *)

Section ServerOutcome.

Variable E : env.
Variable distance : Z.

(** What the sampling loop does to the log, by outcome. *)
Lemma server_loop_spec ws : forall acc w res w',
  server_loop E distance ws acc w = (res, w') ->
  exists entries,
    log w' = log w ++ entries /\
    only_fetched w w' /\
    match res with
    | Ok (Some collected) =>
        List.length entries = List.length ws /\
        List.length collected = (List.length acc + List.length ws)%nat /\
        Forall (fun e => usable (snd e)) entries
    | Ok None =>
        exists passed failing,
          entries = passed ++ [failing] /\
          (List.length passed < List.length ws)%nat /\
          Forall (fun e => usable (snd e)) passed /\
          (status (snd failing) <> 200 \/ json (snd failing) = [])
    | Raise e =>
        e = OverflowError /\
        (List.length entries < List.length ws)%nat /\
        Forall (fun e => usable (snd e)) entries
    end.
Proof.
  induction ws as [|k ws IH]; intros acc w res w' Hrun; simpl in Hrun.
  - inversion Hrun. subst. exists []. rewrite app_nil_r.
    unfold only_fetched. repeat split; auto; simpl; try lia.
  - unfold bind at 1 in Hrun.
    pose proof (days_ago_raises E ((k + 1) * distance) w) as Hraise1.
    step_days_ago E ((k + 1) * distance) w start w1.
    2:{ inversion Hrun. subst. exists []. rewrite app_nil_r.
        unfold only_fetched.
        repeat split; auto; simpl; try lia; now apply Hraise1. }
    unfold bind at 1 in Hrun.
    pose proof (days_ago_raises E (k * distance) w1) as Hraise2.
    step_days_ago E (k * distance) w1 end_ w2.
    2:{ inversion Hrun. subst. exists []. rewrite app_nil_r.
        unfold only_fetched.
        repeat split; try congruence; auto; simpl; try lia; now apply Hraise2. }
    clear Hraise1 Hraise2.
    unfold bind at 1, session_get at 1 in Hrun.
    set (req := [param "start" (PTime start); param "end" (PTime end_)]) in Hrun.
    set (r := http E (List.length (log w2)) req) in Hrun.
    set (w3 := mkWorld _ _ _ _ _) in Hrun.
    assert (Hw3 : log w3 = log w ++ [(req, r)] /\ only_fetched w w3).
    { unfold only_fetched, w3. simpl.
      split; [rewrite Hlog0, Hlog; reflexivity | repeat split; congruence]. }
    clearbody w3. destruct Hw3 as [Hl3 (Ha3 & Hf3 & Hs3)].
    destruct (status r =? 200) eqn:Hst; simpl in Hrun.
    2:{ apply Z.eqb_neq in Hst. inversion Hrun. subst.
        exists [(req, r)]. unfold only_fetched. repeat split; auto.
        exists [], (req, r). simpl. repeat split; auto. lia. }
    apply Z.eqb_eq in Hst.
    destruct (json r) as [|s0 rest] eqn:Hj.
    { inversion Hrun. subst.
      exists [(req, r)]. unfold only_fetched. repeat split; auto.
      exists [], (req, r). simpl. repeat split; auto. lia. }
    rewrite <- Hj in Hrun.
    assert (Hus : usable r).
    { split; [exact Hst | rewrite Hj; discriminate]. }
    destruct (IH _ w3 res w' Hrun) as [entries [Hl [(Ha & Hf & Hs) Hres]]].
    exists ((req, r) :: entries). split; [|split].
    + rewrite Hl, Hl3, <- app_assoc. reflexivity.
    + unfold only_fetched. repeat split; etransitivity; eauto.
    + destruct res as [[collected|]|e].
      * destruct Hres as (Hlen & Hc & Hall). simpl.
        rewrite Hc, length_app. simpl. repeat split; auto; lia.
      * destruct Hres as (passed & failing & Hent & Hlen & Hall & Hbad).
        exists ((req, r) :: passed), failing. simpl.
        repeat split; auto; [now rewrite Hent | lia].
      * destruct Hres as (He & Hlen & Hall). simpl.
        repeat split; auto. lia.
Qed.

Lemma server_unfold num_samples w :
  server E num_samples distance w
  = match server_loop E distance (range num_samples) [] w with
    | (Ok (Some collected), w1) =>
        let fig := ServerFigure (map fst (rev collected))
                                (map snd (rev collected)) in
        (Ok ReturnedNone,
         mkWorld (ticks w1) (log w1) [] (Some fig) (sent w1 ++ [SendFile fig]))
    | (Ok None, w1) => (Ok ReturnedFalse, w1)
    | (Raise e, w1) => (Raise e, w1)
    end.
Proof.
  unfold server, interval_totals, bind.
  destruct (server_loop E distance (range num_samples) [] w)
    as [[[collected|]|e] w1]; reflexivity.
Qed.

End ServerOutcome.

Lemma length_range n : List.length (range n) = Z.to_nat n.
Proof. unfold range. now rewrite length_map, length_seq. Qed.

(** X12: if the response to the window of sample [k] of [graph server]
    has a status other than 200 or an empty array, the command returns
    [False] at once: it has issued [k + 1] requests, has sent nothing and
    has left the image file and the axes as they were. *)
Theorem server_stops_at_first_bad_window E num_samples distance w (k : nat) r :
  let out := server E num_samples distance w in
  nth_error (fetched w (snd out)) k = Some r ->
  status r <> 200 \/ json r = [] ->
  fst out = Ok ReturnedFalse /\
  List.length (fetched w (snd out)) = S k /\
  (k < Z.to_nat num_samples)%nat /\
  sent (snd out) = sent w /\
  last_graph (snd out) = last_graph w /\
  axes (snd out) = axes w.
Proof.
  intros out Hr Hbad. subst out. rewrite server_unfold in *.
  destruct (server_loop E distance (range num_samples) [] w) as [res w1] eqn:Hloop.
  destruct (server_loop_spec _ _ _ _ _ _ _ Hloop)
    as [entries [Hl [(Ha & Hf & Hs) Hres]]].
  rewrite length_range in Hres.
  assert (Hgood : forall (l : list (request * response)) i x,
                    Forall (fun e => usable (snd e)) l ->
                    nth_error (map snd l) i = Some x -> usable x).
  { intros l i x Hall Hn. apply nth_error_In in Hn. apply in_map_iff in Hn.
    destruct Hn as [e [<- Hin]]. rewrite Forall_forall in Hall. now apply Hall. }
  assert (Hnot : ~ usable r) by (unfold usable; tauto).
  destruct res as [[collected|]|e]; simpl in Hr |- *.
  - destruct Hres as (_ & _ & Hall). exfalso. apply Hnot.
    rewrite (fetched_app w _ entries) in Hr by (simpl; exact Hl).
    apply (Hgood _ _ _ Hall Hr).
  - destruct Hres as (passed & failing & -> & Hlen & Hall & _).
    rewrite (fetched_app w w1 _ Hl) in *. rewrite map_app in *.
    assert (Hk : k = List.length passed).
    { destruct (Nat.lt_ge_cases k (List.length passed)) as [Hlt|Hge].
      - rewrite nth_error_app1 in Hr by now rewrite length_map.
        exfalso. apply Hnot. apply (Hgood _ _ _ Hall Hr).
      - assert (Hsome : nth_error (map snd passed ++ map snd [failing]) k
                        <> None) by congruence.
        apply nth_error_Some in Hsome.
        rewrite length_app, length_map in Hsome. simpl in Hsome. lia. }
    subst k. rewrite length_app, length_map. simpl.
    repeat split; auto; lia.
  - destruct Hres as (_ & _ & Hall). exfalso. apply Hnot.
    rewrite (fetched_app w w1 entries Hl) in Hr.
    apply (Hgood _ _ _ Hall Hr).
Qed.

Lemma server_stops_at_first_bad_window_witness :
  fst (server down_on_second_day 13 7 fresh) = Ok ReturnedFalse /\
  List.length (fetched fresh (snd (server down_on_second_day 13 7 fresh))) = 3%nat /\
  (2 < Z.to_nat 13)%nat /\
  sent (snd (server down_on_second_day 13 7 fresh)) = sent fresh /\
  last_graph (snd (server down_on_second_day 13 7 fresh)) = last_graph fresh /\
  axes (snd (server down_on_second_day 13 7 fresh)) = axes fresh.
Proof.
  apply (server_stops_at_first_bad_window down_on_second_day 13 7 fresh 2
           unavailable).
  - reflexivity.
  - left. simpl. lia.
Defined.

(** X13: when [graph server] returns normally it has fetched exactly
    [num_samples] windows, each answered 200 with data, and has sent once
    the figure that is then in the image file: one label and one total per
    window; the axes are left empty. *)
Theorem server_sends_one_point_per_window E num_samples distance w :
  let out := server E num_samples distance w in
  fst out = Ok ReturnedNone ->
  List.length (fetched w (snd out)) = Z.to_nat num_samples /\
  Forall usable (fetched w (snd out)) /\
  exists values_x values_y,
    List.length values_x = Z.to_nat num_samples /\
    List.length values_y = Z.to_nat num_samples /\
    sent (snd out) = sent w ++ [SendFile (ServerFigure values_x values_y)] /\
    last_graph (snd out) = Some (ServerFigure values_x values_y) /\
    axes (snd out) = [].
Proof.
  intros out Hok. subst out. rewrite server_unfold in *.
  destruct (server_loop E distance (range num_samples) [] w) as [res w1] eqn:Hloop.
  destruct (server_loop_spec _ _ _ _ _ _ _ Hloop)
    as [entries [Hl [(Ha & Hf & Hs) Hres]]].
  rewrite length_range in Hres.
  destruct res as [[collected|]|e]; try discriminate.
  destruct Hres as (Hlen & Hc & Hall). simpl in Hc. simpl.
  assert (Hfetched : fetched w
                       (mkWorld (ticks w1) (log w1) []
                          (Some (ServerFigure (map fst (rev collected))
                                              (map snd (rev collected))))
                          (sent w1 ++ [SendFile (ServerFigure
                                                   (map fst (rev collected))
                                                   (map snd (rev collected)))]))
                     = map snd entries).
  { apply fetched_app. exact Hl. }
  rewrite Hfetched, length_map. split; [exact Hlen|]. split.
  - apply Forall_forall. intros r Hin. apply in_map_iff in Hin.
    destruct Hin as [e [<- Hin]]. rewrite Forall_forall in Hall. now apply Hall.
  - exists (map fst (rev collected)), (map snd (rev collected)).
    rewrite !length_map, length_rev, Hs. repeat split; auto.
Qed.

Lemma server_sends_one_point_per_window_witness :
  List.length (fetched fresh (snd (server (stub three_windows) 3 7 fresh)))
  = Z.to_nat 3 /\
  Forall usable (fetched fresh (snd (server (stub three_windows) 3 7 fresh))) /\
  exists values_x values_y,
    List.length values_x = Z.to_nat 3 /\
    List.length values_y = Z.to_nat 3 /\
    sent (snd (server (stub three_windows) 3 7 fresh))
    = sent fresh ++ [SendFile (ServerFigure values_x values_y)] /\
    last_graph (snd (server (stub three_windows) 3 7 fresh))
    = Some (ServerFigure values_x values_y) /\
    axes (snd (server (stub three_windows) 3 7 fresh)) = [].
Proof.
  apply (server_sends_one_point_per_window (stub three_windows) 3 7 fresh).
  reflexivity.
Defined.

(* ================================================================== *)
(** ** [clamp] and the labels *)

(** X15: for bounds in order, [clamp] returns a value within the bounds:
    the value itself when it is within them, the nearer bound otherwise;
    clamping twice changes nothing and clamping keeps the order of two
    values. *)
Theorem clamp_is_the_nearest_value_in_bounds value low high :
  low <= high ->
  low <= clamp value low high <= high /\
  (low <= value <= high -> clamp value low high = value) /\
  (value < low -> clamp value low high = low) /\
  (high < value -> clamp value low high = high) /\
  clamp (clamp value low high) low high = clamp value low high /\
  (forall value', value <= value' ->
                  clamp value low high <= clamp value' low high).
Proof.
  intros Hb.
  assert (Hspec : forall v,
             (v < low /\ clamp v low high = low) \/
             (high < v /\ clamp v low high = high) \/
             (low <= v <= high /\ clamp v low high = v)).
  { intros v. unfold clamp.
    destruct (v <? low) eqn:H1.
    - apply Z.ltb_lt in H1. auto.
    - apply Z.ltb_ge in H1. destruct (v >? high) eqn:H2.
      + rewrite Z.gtb_ltb in H2. apply Z.ltb_lt in H2. right. left. lia.
      + rewrite Z.gtb_ltb in H2. apply Z.ltb_ge in H2. right. right. lia. }
  pose proof (Hspec value) as Hv.
  pose proof (Hspec (clamp value low high)) as Hvv.
  repeat split; try lia.
  intros value' Hle. pose proof (Hspec value'). lia.
Qed.

Lemma clamp_is_the_nearest_value_in_bounds_witness :
  1 <= clamp 40 1 30 <= 30 /\
  (1 <= 40 <= 30 -> clamp 40 1 30 = 40) /\
  (40 < 1 -> clamp 40 1 30 = 1) /\
  (30 < 40 -> clamp 40 1 30 = 30) /\
  clamp (clamp 40 1 30) 1 30 = clamp 40 1 30 /\
  (forall value', 40 <= value' -> clamp 40 1 30 <= clamp value' 1 30).
Proof.
  apply (clamp_is_the_nearest_value_in_bounds 40 1 30). lia.
Defined.

Lemma list_ascii_of_string_app (a b : string) :
  list_ascii_of_string (a ++ b)
  = (list_ascii_of_string a ++ list_ascii_of_string b)%list.
Proof. induction a as [|c a IH]; simpl; [reflexivity | now rewrite IH]. Qed.

(** Dropping as many characters as a character-aligned suffix holds
    removes that suffix and nothing else. *)
Lemma drop_characters_suffix (d : list ascii) : forall rest,
  match d with [] => True | b :: _ => is_continuation b = false end ->
  drop_characters
    (List.length (filter (fun b => negb (is_continuation b)) d))
    (rev d ++ rest)
  = rest.
Proof.
  induction d as [|b d IH] using rev_ind; intros rest Hstart.
  - simpl. now destruct rest.
  - rewrite rev_app_distr, filter_app, length_app. simpl.
    destruct (is_continuation b) eqn:Hb; simpl.
    + destruct d as [|b0 d].
      * simpl in Hstart. congruence.
      * rewrite Nat.add_0_r.
        specialize (IH rest Hstart). simpl in Hstart.
        assert (Hpos : exists k,
                   List.length (filter (fun b => negb (is_continuation b))
                                       (b0 :: d)) = S k).
        { simpl. rewrite Hstart. simpl. eauto. }
        destruct Hpos as [k Hk]. rewrite Hk in *. exact IH.
    + rewrite Nat.add_1_r. apply IH.
      destruct d; [exact I | exact Hstart].
Qed.

(** Dropping more characters than there are leaves nothing. *)
Lemma drop_characters_short (l : list ascii) : forall n,
  (List.length (filter (fun b => negb (is_continuation b)) l) < n)%nat ->
  drop_characters n l = [].
Proof.
  induction l as [|b l IH]; intros n Hn; [reflexivity|].
  simpl in *. destruct n as [|n]; [lia|].
  destruct (is_continuation b); simpl in Hn; apply IH; lia.
Qed.

Lemma lead_count_rev (l : list ascii) :
  List.length (filter (fun b => negb (is_continuation b)) (rev l))
  = List.length (filter (fun b => negb (is_continuation b)) l).
Proof.
  induction l as [|b l IH]; [reflexivity|].
  simpl. rewrite filter_app, length_app, IH. simpl.
  destruct (is_continuation b); simpl; lia.
Qed.

(** [[:-5]] removes a suffix of five characters that is aligned on a
    character. *)
Lemma drop_last5_suffix (base suffix : string) :
  utf8_length suffix = 5%nat -> starts_character suffix ->
  drop_last5 (base ++ suffix) = base.
Proof.
  unfold utf8_length, drop_last5. intros Hlen Hstart.
  rewrite list_ascii_of_string_app, rev_app_distr, <- Hlen.
  rewrite drop_characters_suffix.
  - now rewrite rev_involutive, string_of_list_ascii_of_string.
  - destruct suffix; [exact I | exact Hstart].
Qed.

(** [[:-5]] leaves nothing of a string of at most five characters. *)
Lemma drop_last5_short (short : string) :
  (utf8_length short <= 5)%nat -> starts_character short ->
  drop_last5 short = ""%string.
Proof.
  unfold utf8_length, drop_last5. intros Hlen Hstart.
  destruct (Nat.eq_dec
              (List.length (filter (fun b => negb (is_continuation b))
                                   (list_ascii_of_string short))) 5)
    as [Heq|Hne].
  - rewrite <- Heq.
    rewrite <- (app_nil_r (rev (list_ascii_of_string short))).
    rewrite drop_characters_suffix; [reflexivity|].
    destruct short; [exact I | exact Hstart].
  - rewrite drop_characters_short; [reflexivity|].
    rewrite lead_count_rev. lia.
Qed.

(** X16: the label of the line plotted for a user is the stored name
    without its last five characters, a space and the window total: a
    name made of a base and a discriminator of five characters is shown
    as its base, and a name of at most five characters as nothing.
    Characters, not bytes, are counted. *)
Theorem label_drops_the_discriminator
    ss uid data rest (base discriminator short : string) total w :
  PyDict.get (num_messages ss) uid = Some total ->
  (PyDict.get (user_names ss) uid = Some (base ++ discriminator)%string ->
   utf8_length discriminator = 5%nat -> starts_character discriminator ->
   plot_lines ss ((uid, data) :: rest) w
   = plot_lines ss rest
       (mkWorld (ticks w) (log w)
          (axes w ++ [mkLine (map fst data) (map snd data)
                             (base ++ " " ++ str_of_int total)%string])
          (last_graph w) (sent w))) /\
  (PyDict.get (user_names ss) uid = Some short ->
   (utf8_length short <= 5)%nat -> starts_character short ->
   plot_lines ss ((uid, data) :: rest) w
   = plot_lines ss rest
       (mkWorld (ticks w) (log w)
          (axes w ++ [mkLine (map fst data) (map snd data)
                             (" " ++ str_of_int total)%string])
          (last_graph w) (sent w))).
Proof.
  intros Htotal. split.
  - intros Hname Hlen Hstart. simpl.
    unfold bind at 1, lift at 1, index. rewrite Hname.
    unfold bind at 1, lift at 1. rewrite Htotal.
    unfold bind at 1, plt_plot at 1.
    now rewrite (drop_last5_suffix base discriminator Hlen Hstart).
  - intros Hname Hlen Hstart. simpl.
    unfold bind at 1, lift at 1, index. rewrite Hname.
    unfold bind at 1, lift at 1. rewrite Htotal.
    unfold bind at 1, plt_plot at 1.
    now rewrite (drop_last5_short short Hlen Hstart).
Qed.

Lemma label_drops_the_discriminator_witness :
  plot_lines (mkSeriesSet [(7, ("zo" ++ e_acute ++ accented_discriminator)%string)]
                [(7, 5)] [(7, [(0, 0)])])
             [(7, [(0, 0)])] fresh
  = (Ok tt, mkWorld 0 [] [mkLine [0] [0] ("zo" ++ e_acute ++ " 5")%string]
                    None []) /\
  plot_lines (mkSeriesSet [(7, five_characters)] [(7, 5)] [(7, [(0, 0)])])
             [(7, [(0, 0)])] fresh
  = (Ok tt, mkWorld 0 [] [mkLine [0] [0] " 5"%string] None []).
Proof.
  split.
  - apply (proj1 (label_drops_the_discriminator
                    (mkSeriesSet
                       [(7, ("zo" ++ e_acute ++ accented_discriminator)%string)]
                       [(7, 5)] [(7, [(0, 0)])])
                    7 [(0, 0)] [] ("zo" ++ e_acute)%string
                    accented_discriminator five_characters 5 fresh
                    eq_refl)).
    + reflexivity.
    + reflexivity.
    + reflexivity.
  - apply (proj2 (label_drops_the_discriminator
                    (mkSeriesSet [(7, five_characters)] [(7, 5)]
                       [(7, [(0, 0)])])
                    7 [(0, 0)] [] ("zo" ++ e_acute)%string
                    accented_discriminator five_characters 5 fresh
                    eq_refl)).
    + reflexivity.
    + vm_compute. lia.
    + reflexivity.
Defined.

(* ================================================================== *)
(** ** When the service answers *)

(** X17: whenever every request is answered 200 with data and the clock
    is at least [days] days after [datetime.min],
    [create_graph_messages] answers [True] for every [days] from 0 to
    999999999; so then [graph top] sends an image, whatever its
    arguments. *)
Theorem service_up_means_a_graph E days limit members n top_days w :
  0 <= days <= 999999999 -> clock_after E days -> clock_after E 30 ->
  always_ok E -> never_empty E ->
  fst (create_graph_messages E days limit members w) = Ok true /\
  exists g,
    fst (top E n top_days w) = Ok ReturnedNone /\
    sent (snd (top E n top_days w)) = sent w ++ [SendFile g].
Proof.
  intros Hdays Hclock H30 Hok Hdata. split.
  - now apply create_graph_messages_succeeds.
  - now apply top_sends_graph.
Qed.

Lemma service_up_means_a_graph_witness :
  fst (create_graph_messages steady 4 0 None fresh) = Ok true /\
  exists g,
    fst (top steady 3 40 fresh) = Ok ReturnedNone /\
    sent (snd (top steady 3 40 fresh)) = sent fresh ++ [SendFile g].
Proof.
  apply (service_up_means_a_graph steady 4 0 None 3 40 fresh).
  - lia.
  - intros t. cbn. unfold some_noon, datetime_end, us_per_day. lia.
  - intros t. cbn. unfold some_noon, datetime_end, us_per_day. lia.
  - intros k req. reflexivity.
  - intros k req. simpl. discriminate.
Defined.

(** X18: whenever every request is answered 200 with data, the distance
    is not negative and the clock is far enough from [datetime.min] for
    the oldest window, [graph server] fetches every window, saves the
    figure of the interval totals (their labels as abscissas, their sums
    as ordinates, one per window), sends that figure once and returns
    [None]. *)
Theorem service_up_means_a_server_graph E num_samples distance w :
  0 <= distance -> Z.max 0 num_samples * distance <= 999999999 ->
  clock_after E (Z.max 0 num_samples * distance) ->
  always_ok E -> never_empty E ->
  fst (server E num_samples distance w) = Ok ReturnedNone /\
  List.length (fetched w (snd (server E num_samples distance w)))
  = Z.to_nat num_samples /\
  exists totals w1,
    interval_totals E num_samples distance w = (Ok (Some totals), w1) /\
    List.length totals = Z.to_nat num_samples /\
    server E num_samples distance w
    = (Ok ReturnedNone,
       mkWorld (ticks w1) (log w1) []
         (Some (ServerFigure (map fst totals) (map snd totals)))
         (sent w ++ [SendFile (ServerFigure (map fst totals)
                                            (map snd totals))])).
Proof.
  intros Hd Hspan Hclock Hok Hdata.
  destruct (interval_totals_succeeds E num_samples distance w Hd Hspan Hclock
              Hok Hdata) as (totals & w1 & Hrun).
  assert (Hserver : server E num_samples distance w
                    = (Ok ReturnedNone,
                       mkWorld (ticks w1) (log w1) []
                         (Some (ServerFigure (map fst totals) (map snd totals)))
                         (sent w1 ++ [SendFile (ServerFigure (map fst totals)
                                                  (map snd totals))]))).
  { unfold server. unfold bind at 1. rewrite Hrun. reflexivity. }
  unfold interval_totals in Hrun. unfold bind at 1 in Hrun.
  destruct (server_loop E distance (range num_samples) [] w)
    as [[[collected|]|e] w2] eqn:Hloop; try discriminate.
  inversion Hrun. subst totals w2. clear Hrun.
  destruct (server_loop_spec _ _ _ _ _ _ _ Hloop)
    as [entries [Hl [(_ & _ & Hs) (Hlen & Hc & _)]]].
  rewrite length_range in Hlen, Hc. simpl in Hc.
  rewrite Hs in Hserver. rewrite Hserver. simpl.
  split; [reflexivity|]. split.
  - rewrite (fetched_app w _ entries) by (simpl; exact Hl).
    now rewrite length_map.
  - exists (rev collected), w1. repeat split.
    + unfold interval_totals. unfold bind at 1. now rewrite Hloop.
    + now rewrite length_rev.
Qed.

Lemma service_up_means_a_server_graph_witness :
  fst (server steady 13 7 fresh) = Ok ReturnedNone /\
  List.length (fetched fresh (snd (server steady 13 7 fresh))) = Z.to_nat 13 /\
  exists totals w1,
    interval_totals steady 13 7 fresh = (Ok (Some totals), w1) /\
    List.length totals = Z.to_nat 13 /\
    server steady 13 7 fresh
    = (Ok ReturnedNone,
       mkWorld (ticks w1) (log w1) []
         (Some (ServerFigure (map fst totals) (map snd totals)))
         (sent fresh ++ [SendFile (ServerFigure (map fst totals)
                                                (map snd totals))])).
Proof.
  apply (service_up_means_a_server_graph steady 13 7 fresh).
  - lia.
  - lia.
  - intros t. cbn. unfold some_noon, datetime_end, us_per_day. lia.
  - intros k req. reflexivity.
  - intros k req. simpl. discriminate.
Defined.
